(** * skrl example scripts: A2C on Pendulum (masked velocity) and TRPO on Cartpole

    A shallow embedding of the two example scripts

    - [docs/source/examples/gym/a2c_gym_pendulumnovel.py]
    - [docs/source/examples/isaacgym/trpo_cartpole.py]

    and the properties their specification states about them.

    Conventions.
    - Tensor entries are real numbers ([R]): the float arithmetic of the
      scripts is idealised (no rounding, no NaN, no infinities).  A batch
      of states is a list of rows.
    - Python dictionaries are [gmap string _]; dictionaries that are
      shared by reference live in a heap of dictionary objects.
    - A Python operation that can raise returns [option] or a sum. *)

From Stdlib Require Import Reals Lra ZArith String Ascii.
From stdpp Require Import gmap strings list fin_maps.

Local Open Scope string_scope.

(** ** PyTorch building blocks used by the scripts *)

Module Torch.

(** [nn.Linear(in_features, out_features)]: [weight] has
    [out_features] rows of [in_features] entries, [bias] has
    [out_features] entries. *)
Record Linear := mkLinear {
  in_features : nat;
  out_features : nat;
  weight : list (list R);
  bias : list R
}.

Definition dot (w x : list R) : R :=
  foldr Rplus 0%R (zip_with Rmult w x).

(** [F.linear(x, weight, bias)] on one row; a row whose width is not
    [in_features] raises (here: [None]). *)
Definition Linear_forward (l : Linear) (x : list R) : option (list R) :=
  if decide (length x = in_features l)
  then Some (zip_with (fun row b => (dot row x + b)%R) (weight l) (bias l))
  else None.

(** [nn.ReLU()] and [nn.ELU()] (alpha = 1), elementwise. *)
Definition ReLU (x : list R) : list R := map (fun v => Rmax 0 v) x.

Definition elu (v : R) : R :=
  if Rlt_dec 0 v then v else (1 * (exp v - 1))%R.

Definition ELU (x : list R) : list R := map elu x.

(** The shape an [nn.Linear] keeps from construction on (the optimizer
    and the initialisers change entries, never shapes). *)
Definition Linear_shaped (l : Linear) : Prop :=
  length (weight l) = out_features l /\
  length (bias l) = out_features l /\
  Forall (fun row => length row = in_features l) (weight l).

End Torch.

(** ** NumPy broadcasting product of one-dimensional arrays *)

Module Numpy.

(** [a * b] for arrays of shapes [(n,)] and [(m,)]: elementwise when
    [n = m], a length-one operand is stretched, any other pair of
    shapes raises [ValueError] (here: [None]). *)
Definition multiply (a b : list R) : option (list R) :=
  if decide (length a = length b) then Some (zip_with Rmult a b)
  else if decide (length a = 1) then
    Some (zip_with Rmult (replicate (length b) (hd 0%R a)) b)
  else if decide (length b = 1) then
    Some (zip_with Rmult a (replicate (length a) (hd 0%R b)))
  else None.

End Numpy.

(** ** a2c_gym_pendulumnovel.py *)

Module Pendulum.
Import Torch.

(** [class Policy(GaussianMixin, Model)]: the [nn.Sequential] of
    lines 26-30 and [log_std_parameter]. *)
Record Policy := mkPolicy {
  net_0 : Linear;   (* nn.Linear(num_observations, 64) *)
  net_2 : Linear;   (* nn.Linear(64, 64) *)
  net_4 : Linear;   (* nn.Linear(64, num_actions) *)
  log_std_parameter : list R
}.

(** [self.net(row)]: Linear, ReLU, Linear, ReLU, Linear. *)
Definition net_row (self : Policy) (x : list R) : option (list R) :=
  h0 ← Linear_forward (net_0 self) x;
  h2 ← Linear_forward (net_2 self) (ReLU h0);
  Linear_forward (net_4 self) (ReLU h2).

Definition net (self : Policy) (states : list (list R))
  : option (list (list R)) :=
  mapM (net_row self) states.

(** [2 * torch.tanh(t)], elementwise. *)
Definition scaled_tanh (t : list (list R)) : list (list R) :=
  map (map (fun v => (2 * tanh v)%R)) t.

(** [Policy.compute(self, inputs, role)], lines 33-35.  A missing
    ["states"] key raises [KeyError], a wrong row width raises inside
    the network; both are [None]. *)
Definition compute (self : Policy) (inputs : gmap string (list (list R)))
    (role : string)
  : option (list (list R) * list R * gmap string (list (list R))) :=
  states ← inputs !! "states";
  out ← net self states;
  Some (scaled_tanh out, log_std_parameter self, ∅).

(** The shape fixed by [Policy.__init__] for an environment with
    [num_observations] observations and [num_actions] actions. *)
Definition Policy_shaped (self : Policy) (num_observations num_actions : nat)
  : Prop :=
  Linear_shaped (net_0 self) /\ Linear_shaped (net_2 self) /\
  Linear_shaped (net_4 self) /\
  in_features (net_0 self) = num_observations /\
  out_features (net_0 self) = 64 /\
  in_features (net_2 self) = 64 /\ out_features (net_2 self) = 64 /\
  in_features (net_4 self) = 64 /\
  out_features (net_4 self) = num_actions.

(** [Policy.__init__], lines 21-31.  The entries of the three
    [nn.Linear] layers are the ones their constructors drew;
    [log_std_parameter] is [torch.zeros(num_actions)]. *)
Definition Policy_new (num_observations num_actions : nat)
    (w0 : list (list R)) (b0 : list R) (w2 : list (list R)) (b2 : list R)
    (w4 : list (list R)) (b4 : list R) : Policy :=
  {| net_0 := mkLinear num_observations 64 w0 b0;
     net_2 := mkLinear 64 64 w2 b2;
     net_4 := mkLinear 64 num_actions w4 b4;
     log_std_parameter := replicate num_actions 0%R |}.

(** [class Value(DeterministicMixin, Model)], lines 37-49. *)
Record Value := mkValue {
  v_net_0 : Linear;   (* nn.Linear(num_observations, 64) *)
  v_net_2 : Linear;   (* nn.Linear(64, 64) *)
  v_net_4 : Linear    (* nn.Linear(64, 1) *)
}.

Definition Value_net_row (self : Value) (x : list R) : option (list R) :=
  h0 ← Linear_forward (v_net_0 self) x;
  h2 ← Linear_forward (v_net_2 self) (ReLU h0);
  Linear_forward (v_net_4 self) (ReLU h2).

Definition Value_compute (self : Value) (inputs : gmap string (list (list R)))
    (role : string)
  : option (list (list R) * gmap string (list (list R))) :=
  states ← inputs !! "states";
  out ← mapM (Value_net_row self) states;
  Some (out, ∅).

(** [class NoVelocityWrapper(gym.ObservationWrapper)]: the wrapper
    object holds the wrapped environment. *)
Record NoVelocityWrapper := mkNoVelocityWrapper { env_id : string }.

(** [NoVelocityWrapper.observation], lines 54-56:
    [observation * np.array([1, 1, 0])]. *)
Definition observation (self : NoVelocityWrapper) (observation : list R)
  : option (list R) :=
  Numpy.multiply observation [1%R; 1%R; 0%R].

(** Line 68: [RandomMemory(memory_size=1024, ...)]. *)
Definition memory_size : nat := 1024.

End Pendulum.

(** ** trpo_cartpole.py: the models *)

Module Cartpole.
Import Torch.

(** [class Policy(GaussianModel)], lines 24-38. *)
Record Policy := mkPolicy {
  net_0 : Linear;   (* nn.Linear(num_observations, 32) *)
  net_2 : Linear;   (* nn.Linear(32, 32) *)
  net_4 : Linear;   (* nn.Linear(32, num_actions) *)
  log_std_parameter : list R
}.

(** [self.net(row)]: Linear, ELU, Linear, ELU, Linear. *)
Definition net_row (self : Policy) (x : list R) : option (list R) :=
  h0 ← Linear_forward (net_0 self) x;
  h2 ← Linear_forward (net_2 self) (ELU h0);
  Linear_forward (net_4 self) (ELU h2).

Definition net (self : Policy) (states : list (list R))
  : option (list (list R)) :=
  mapM (net_row self) states.

(** [Policy.compute(self, states, taken_actions)], lines 37-38: the
    network output is returned as it is. *)
Definition compute (self : Policy) (states taken_actions : list (list R))
  : option (list (list R) * list R) :=
  out ← net self states;
  Some (out, log_std_parameter self).

Definition Policy_shaped (self : Policy) (num_observations num_actions : nat)
  : Prop :=
  Linear_shaped (net_0 self) /\ Linear_shaped (net_2 self) /\
  Linear_shaped (net_4 self) /\
  in_features (net_0 self) = num_observations /\
  out_features (net_0 self) = 32 /\
  in_features (net_2 self) = 32 /\ out_features (net_2 self) = 32 /\
  in_features (net_4 self) = 32 /\
  out_features (net_4 self) = num_actions.

(** [class Value(DeterministicModel)], lines 40-51. *)
Record Value := mkValue {
  v_net_0 : Linear;   (* nn.Linear(num_observations, 32) *)
  v_net_2 : Linear;   (* nn.Linear(32, 32) *)
  v_net_4 : Linear    (* nn.Linear(32, 1) *)
}.

Definition Value_net_row (self : Value) (x : list R) : option (list R) :=
  h0 ← Linear_forward (v_net_0 self) x;
  h2 ← Linear_forward (v_net_2 self) (ELU h0);
  Linear_forward (v_net_4 self) (ELU h2).

Definition Value_compute (self : Value) (states taken_actions : list (list R))
  : option (list (list R)) :=
  mapM (Value_net_row self) states.

(** [Policy.__init__], lines 25-35.  The entries of the three
    [nn.Linear] layers are the ones their constructors drew;
    [log_std_parameter] is [torch.zeros(num_actions)]. *)
Definition Policy_new (num_observations num_actions : nat)
    (w0 : list (list R)) (b0 : list R) (w2 : list (list R)) (b2 : list R)
    (w4 : list (list R)) (b4 : list R) : Policy :=
  {| net_0 := mkLinear num_observations 32 w0 b0;
     net_2 := mkLinear 32 32 w2 b2;
     net_4 := mkLinear 32 num_actions w4 b4;
     log_std_parameter := replicate num_actions 0%R |}.

(** [Value.__init__], lines 41-48. *)
Definition Value_new (num_observations : nat)
    (w0 : list (list R)) (b0 : list R) (w2 : list (list R)) (b2 : list R)
    (w4 : list (list R)) (b4 : list R) : Value :=
  {| v_net_0 := mkLinear num_observations 32 w0 b0;
     v_net_2 := mkLinear 32 32 w2 b2;
     v_net_4 := mkLinear 32 1 w4 b4 |}.

(** Line 68: [RandomMemory(memory_size=16, ...)]. *)
Definition memory_size : nat := 16.

(** *** The environment loader, lines 57-61 *)

(** A raised Python exception: what [str(e)] gives, and whether it is
    an instance of [Exception] (a [KeyboardInterrupt] or [SystemExit]
    is a [BaseException] only). *)
Record PyException := mkPyException {
  exc_str : string;
  exc_is_Exception : bool
}.

Inductive outcome (A : Type) :=
| Returned (a : A)
| Raised (e : PyException).
Arguments Returned {A} a.
Arguments Raised {A} e.

(** What the block does that the outside can see, in order. *)
Inductive event :=
| Call_preview4 (task_name : string)
| Print (text : string)
| Call_preview2 (task_name : string).

Definition newline : string := String (ascii_of_nat 10) EmptyString.

(** The text handed to [print] at line 60. *)
Definition failure_message (e : PyException) : string :=
  "Isaac Gym (preview 3/4) failed: " ++ exc_str e ++ newline
    ++ "Trying preview 2...".

Section Loader.
Context {Env World : Type}.
(** The two loaders of [skrl.envs.torch]: they act on the world
    outside the script and return an environment or raise. *)
Variable load_isaacgym_env_preview4 : string -> World -> outcome Env * World.
Variable load_isaacgym_env_preview2 : string -> World -> outcome Env * World.

(** The [try]/[except Exception] block: the value bound to [env] or
    the exception that leaves the block, the world afterwards and
    the events in the order they happened. *)
Definition load_env (w : World) : outcome Env * World * list event :=
  match load_isaacgym_env_preview4 "Cartpole" w with
  | (Returned env, w1) => (Returned env, w1, [Call_preview4 "Cartpole"])
  | (Raised e, w1) =>
      if exc_is_Exception e then
        let '(r, w2) := load_isaacgym_env_preview2 "Cartpole" w1 in
        (r, w2, [Call_preview4 "Cartpole"; Print (failure_message e);
                 Call_preview2 "Cartpole"])
      else (Raised e, w1, [Call_preview4 "Cartpole"])
  end.
End Loader.

End Cartpole.

(** ** Python dictionaries shared by reference *)

Module Py.

Abbreviation loc := positive.

(** The values the configuration dictionaries hold: [None], booleans,
    integers, float literals (mantissa and decimal exponent: [1e-3] is
    [VFloat 1 (-3)]), strings, objects of the library or of the
    environment referred to by name, and references to dictionaries. *)
Inductive value :=
| VNone
| VBool (b : bool)
| VInt (n : Z)
| VFloat (mantissa exponent : Z)
| VStr (s : string)
| VObj (name : string)
| VRef (l : loc).

Abbreviation heap := (gmap positive (gmap string value)).

Inductive error :=
| KeyError (key : string)
| TypeError
| InvalidRef (l : loc).

(** Statements run on the heap and either raise or return. *)
Definition M (A : Type) : Type := heap -> error + (A * heap).

Definition ret {A} (a : A) : M A := fun h => inr (a, h).

Definition bind {A B} (m : M A) (k : A -> M B) : M B :=
  fun h => match m h with
           | inl e => inl e
           | inr (a, h') => k a h'
           end.

Definition raise {A} (e : error) : M A := fun _ => inl e.

(** A dictionary display [{...}]: a new object. *)
Definition new_dict (d : gmap string value) : M loc :=
  fun h => let l := fresh (dom h) in inr (l, <[l := d]> h).

(** [d.copy()]: a new dictionary with the same keys and the same
    values; a value that is a reference is copied as a reference. *)
Definition dict_copy (l : loc) : M loc :=
  fun h => match h !! l with
           | Some d => new_dict d h
           | None => inl (InvalidRef l)
           end.

(** [d[k]] *)
Definition getitem (l : loc) (k : string) : M value :=
  fun h => match h !! l with
           | Some d => match d !! k with
                       | Some v => inr (v, h)
                       | None => inl (KeyError k)
                       end
           | None => inl (InvalidRef l)
           end.

(** [d[k] = v] *)
Definition setitem (l : loc) (k : string) (v : value) : M unit :=
  fun h => match h !! l with
           | Some d => inr (tt, <[l := <[k := v]> d]> h)
           | None => inl (InvalidRef l)
           end.

(** [d[k1][k2] = v]: the value under [k1] has to be a dictionary. *)
Definition setitem2 (l : loc) (k1 k2 : string) (v : value) : M unit :=
  bind (getitem l k1) (fun sub =>
    match sub with
    | VRef l' => setitem l' k2 v
    | _ => raise TypeError
    end).

(** [runs m h Q]: statement [m] returns from heap [h], and its result
    and final heap satisfy [Q]. *)
Definition runs {A} (m : M A) (h : heap) (Q : A -> heap -> Prop) : Prop :=
  exists a h', m h = inr (a, h') /\ Q a h'.

#[global] Instance M_ret : MRet M := @ret.
#[global] Instance M_bind : MBind M := fun A B k m => bind m k.

End Py.


(** ** The configuration blocks of the two scripts *)

Module Config.
Import Py.

(** [a2c_gym_pendulumnovel.py], lines 82-101.  [A2C_DEFAULT_CONFIG] is
    the library's dictionary object; [observation_space] and [device]
    are [env.observation_space] and [env.device]. *)
Definition cfg_a2c (A2C_DEFAULT_CONFIG : loc)
    (observation_space device : value) : M loc :=
  cfg_a2c ← dict_copy A2C_DEFAULT_CONFIG;
  setitem cfg_a2c "rollouts" (VInt 1024) ;;
  setitem cfg_a2c "learning_epochs" (VInt 10) ;;
  setitem cfg_a2c "mini_batches" (VInt 32) ;;
  setitem cfg_a2c "discount_factor" (VFloat 9 (-1)) ;;
  setitem cfg_a2c "lambda" (VFloat 95 (-2)) ;;
  setitem cfg_a2c "learning_rate" (VFloat 1 (-3)) ;;
  setitem cfg_a2c "learning_rate_scheduler" (VObj "KLAdaptiveRL") ;;
  kw ← new_dict {[ "kl_threshold" := VFloat 8 (-3);
                    "min_lr" := VFloat 5 (-4) ]};
  setitem cfg_a2c "learning_rate_scheduler_kwargs" (VRef kw) ;;
  setitem cfg_a2c "random_timesteps" (VInt 0) ;;
  setitem cfg_a2c "learning_starts" (VInt 0) ;;
  setitem cfg_a2c "grad_norm_clip" (VFloat 5 (-1)) ;;
  setitem cfg_a2c "entropy_loss_scale" (VFloat 0 0) ;;
  setitem cfg_a2c "state_preprocessor" (VObj "RunningStandardScaler") ;;
  kw ← new_dict {[ "size" := observation_space; "device" := device ]};
  setitem cfg_a2c "state_preprocessor_kwargs" (VRef kw) ;;
  setitem cfg_a2c "value_preprocessor" (VObj "RunningStandardScaler") ;;
  kw ← new_dict {[ "size" := VInt 1; "device" := device ]};
  setitem cfg_a2c "value_preprocessor_kwargs" (VRef kw) ;;
  setitem2 cfg_a2c "experiment" "write_interval" (VInt 500) ;;
  setitem2 cfg_a2c "experiment" "checkpoint_interval" (VInt 5000) ;;
  ret cfg_a2c.

(** [trpo_cartpole.py], lines 85-98. *)
Definition cfg_trpo (TRPO_DEFAULT_CONFIG : loc)
    (observation_space device : value) : M loc :=
  cfg_trpo ← dict_copy TRPO_DEFAULT_CONFIG;
  setitem cfg_trpo "rollouts" (VInt 16) ;;
  setitem cfg_trpo "learning_epochs" (VInt 6) ;;
  setitem cfg_trpo "mini_batches" (VInt 2) ;;
  setitem cfg_trpo "grad_norm_clip" (VFloat 5 (-1)) ;;
  setitem cfg_trpo "value_loss_scale" (VFloat 2 0) ;;
  setitem cfg_trpo "lambda" (VFloat 95 (-2)) ;;
  setitem cfg_trpo "state_preprocessor" (VObj "RunningStandardScaler") ;;
  kw ← new_dict {[ "size" := observation_space; "device" := device ]};
  setitem cfg_trpo "state_preprocessor_kwargs" (VRef kw) ;;
  setitem cfg_trpo "value_preprocessor" (VObj "RunningStandardScaler") ;;
  kw ← new_dict {[ "size" := VInt 1; "device" := device ]};
  setitem cfg_trpo "value_preprocessor_kwargs" (VRef kw) ;;
  setitem2 cfg_trpo "experiment" "write_interval" (VInt 16) ;;
  setitem2 cfg_trpo "experiment" "checkpoint_interval" (VInt 125) ;;
  ret cfg_trpo.

(** What a key of the finished configuration is expected to hold: a
    plain value, or a dictionary with the given contents. *)
Inductive expected :=
| EVal (v : value)
| EDict (d : gmap string value).

Definition holds (h : heap) (v : value) (e : expected) : Prop :=
  match e with
  | EVal v' => v = v'
  | EDict d => exists l, v = VRef l /\ h !! l = Some d
  end.

(** The top-level assignments of the two scripts, key by key. *)
Definition a2c_overrides (observation_space device : value)
  : list (string * expected) :=
  [ ("rollouts", EVal (VInt 1024));
    ("learning_epochs", EVal (VInt 10));
    ("mini_batches", EVal (VInt 32));
    ("discount_factor", EVal (VFloat 9 (-1)));
    ("lambda", EVal (VFloat 95 (-2)));
    ("learning_rate", EVal (VFloat 1 (-3)));
    ("learning_rate_scheduler", EVal (VObj "KLAdaptiveRL"));
    ("learning_rate_scheduler_kwargs",
      EDict {[ "kl_threshold" := VFloat 8 (-3); "min_lr" := VFloat 5 (-4) ]});
    ("random_timesteps", EVal (VInt 0));
    ("learning_starts", EVal (VInt 0));
    ("grad_norm_clip", EVal (VFloat 5 (-1)));
    ("entropy_loss_scale", EVal (VFloat 0 0));
    ("state_preprocessor", EVal (VObj "RunningStandardScaler"));
    ("state_preprocessor_kwargs",
      EDict {[ "size" := observation_space; "device" := device ]});
    ("value_preprocessor", EVal (VObj "RunningStandardScaler"));
    ("value_preprocessor_kwargs",
      EDict {[ "size" := VInt 1; "device" := device ]}) ].

Definition trpo_overrides (observation_space device : value)
  : list (string * expected) :=
  [ ("rollouts", EVal (VInt 16));
    ("learning_epochs", EVal (VInt 6));
    ("mini_batches", EVal (VInt 2));
    ("grad_norm_clip", EVal (VFloat 5 (-1)));
    ("value_loss_scale", EVal (VFloat 2 0));
    ("lambda", EVal (VFloat 95 (-2)));
    ("state_preprocessor", EVal (VObj "RunningStandardScaler"));
    ("state_preprocessor_kwargs",
      EDict {[ "size" := observation_space; "device" := device ]});
    ("value_preprocessor", EVal (VObj "RunningStandardScaler"));
    ("value_preprocessor_kwargs",
      EDict {[ "size" := VInt 1; "device" := device ]}) ].

(** The assignments into the nested ["experiment"] dictionary. *)
Definition a2c_experiment_overrides : list (string * value) :=
  [ ("write_interval", VInt 500); ("checkpoint_interval", VInt 5000) ].

Definition trpo_experiment_overrides : list (string * value) :=
  [ ("write_interval", VInt 16); ("checkpoint_interval", VInt 125) ].

(** The library's default configuration as the script finds it: the
    dictionary [d] at [ld], whose ["experiment"] entry refers to the
    dictionary [x] at [le], a different object. *)
Definition default_config_at (h : heap) (ld le : loc)
    (d x : gmap string value) : Prop :=
  h !! ld = Some d /\ d !! "experiment" = Some (VRef le) /\
  h !! le = Some x /\ ld <> le.

(** The finished configuration at [lc] in heap [h']: the keys
    assigned at top level hold the script's values, the other
    top-level keys what the default [d] holds, and in the
    ["experiment"] dictionary (at [le], contents [x] before the
    script) the assigned keys hold the script's values and the others
    what they held. *)
Definition configured (h' : heap) (lc le : loc)
    (top : list (string * expected)) (nested : list (string * value))
    (d x : gmap string value) : Prop :=
  exists c x',
    h' !! lc = Some c /\
    (forall k e, (k, e) ∈ top -> exists v, c !! k = Some v /\ holds h' v e) /\
    (forall k, k ∉ top.*1 -> c !! k = d !! k) /\
    c !! "experiment" = Some (VRef le) /\
    h' !! le = Some x' /\
    (forall k v, (k, v) ∈ nested -> x' !! k = Some v) /\
    (forall k, k ∉ nested.*1 -> x' !! k = x !! k).

End Config.

(** ** The parts of the skrl library the scripts rely on *)

Module Skrl.
Import Torch.

Section RandomMemory.
Context {T : Type}.

(** Modelled from the spec: [RandomMemory] of [skrl.memories.torch],
    which is not among the source files.  Section 4.3: a
    "fixed-capacity append-only store keyed by environment index and
    timestep, with a size and "full" signal used to trigger updates;
    no eviction policy beyond wraparound".  One slot per timestep,
    each slot a row with one transition per environment. *)
Record RandomMemory := mkRandomMemory {
  memory_size : nat;
  num_envs : nat;
  memory_index : nat;
  filled : bool;
  storage : list (option (list T))
}.

(** Modelled from the spec: the constructor
    [RandomMemory(memory_size, num_envs, device)]: an empty store of
    the configured capacity. *)
Definition create (memory_size num_envs : nat) : RandomMemory :=
  mkRandomMemory memory_size num_envs 0 false (replicate memory_size None).

(** Modelled from the spec: appending the transitions of one
    timestep (one per environment); the write position wraps around
    at the capacity and raises the "full" signal. *)
Definition add_samples (m : RandomMemory) (row : list T) : RandomMemory :=
  let st := <[memory_index m := Some row]> (storage m) in
  let i := S (memory_index m) in
  if decide (memory_size m <= i)
  then mkRandomMemory (memory_size m) (num_envs m) 0 true st
  else mkRandomMemory (memory_size m) (num_envs m) i (filled m) st.

(** Modelled from the spec: the transition stored for a timestep
    slot and an environment index. *)
Definition transition (m : RandomMemory) (t e : nat) : option T :=
  row ← mjoin (storage m !! t); row !! e.

(** Modelled from the spec: the number of transitions the store
    holds for environment [e]. *)
Definition stored (m : RandomMemory) (e : nat) : nat :=
  length (omap (fun slot : option (list T) => row ← slot; row !! e)
               (storage m)).

(** Modelled from the spec: the size of the store (its [len]). *)
Definition size (m : RandomMemory) : nat :=
  if filled m then memory_size m * num_envs m
  else memory_index m * num_envs m.

(** Modelled from the spec: the keys (timestep, environment) an
    update consumes, "in batch": every written slot, for every
    environment. *)
Definition sample_all (m : RandomMemory) : list (nat * nat) :=
  t ← seq 0 (if filled m then memory_size m else memory_index m);
  e ← seq 0 (num_envs m);
  [(t, e)].

(** What holds of a memory of capacity [ms] for [ne] environments
    after [k] appends. *)
Record memory_inv (ms ne k : nat) (m : RandomMemory) : Prop := {
  inv_memory_size : memory_size m = ms;
  inv_num_envs : num_envs m = ne;
  inv_storage : length (storage m) = ms;
  inv_index : memory_index m = k mod ms;
  inv_filled : filled m = true <-> ms <= k
}.

End RandomMemory.
Arguments RandomMemory T : clear implicits.

(** *** Parameter initialisation *)

(** A computation that draws from torch's random generator: the
    position in the stream of draws is threaded through. *)
Definition Gen (A : Type) : Type := nat -> A * nat.

Section Init.
(** The stream of standard normal draws of the generator. *)
Variable randn : nat -> R.

(** Modelled from the spec: [torch.nn.init.normal_(tensor, mean, std)]
    (not among the source files; the specification does not describe
    it, the call site at lines 77-79 does: "Initialize the models'
    parameters (weights and biases) using a Gaussian distribution").
    Every entry is overwritten by [mean + std * z] for the next
    draw [z]. *)
Definition normal_ (t : list R) (mean std : R) : Gen (list R) :=
  fun pos =>
    (imap (fun i _ => (mean + std * randn (pos + i))%R) t, pos + length t).

(** Modelled from the spec: [normal_] on a matrix, row by row (as for
    [normal_]: library code that is not among the source files, on
    which the specification is silent; the model follows the comment
    at the call site, line 77). *)
Fixpoint normal_rows (t : list (list R)) (mean std : R) : Gen (list (list R)) :=
  fun pos =>
    match t with
    | [] => ([], pos)
    | row :: rest =>
        let '(row', pos1) := normal_ row mean std pos in
        let '(rest', pos2) := normal_rows rest mean std pos1 in
        (row' :: rest', pos2)
    end.

(** Modelled from the spec: the initialisation of the parameters of
    an [nn.Linear], in the order [parameters()] yields them: weight,
    then bias (library code that is not among the source files, on
    which the specification is silent; the model follows the comment
    at the call site, line 77). *)
Definition Linear_init (l : Linear) (mean std : R) : Gen Linear :=
  fun pos =>
    let '(w, pos1) := normal_rows (weight l) mean std pos in
    let '(b, pos2) := normal_ (bias l) mean std pos1 in
    (mkLinear (in_features l) (out_features l) w b, pos2).

(** Modelled from the spec: [Model.init_parameters(method_name=
    "normal_", mean, std)] of [skrl.models.torch] on the two model
    classes of the TRPO script: every parameter of the model is
    initialised in place, the model's own parameters first, then
    those of its layers.  The function is library code that is not
    among the source files and the specification is silent on it; the
    model follows the comment at the call site, line 77:
    "Initialize the models' parameters (weights and biases) using a
    Gaussian distribution". *)
Definition Policy_init_parameters (p : Cartpole.Policy) (mean std : R)
  : Gen Cartpole.Policy :=
  fun pos =>
    let '(ls, pos0) := normal_ (Cartpole.log_std_parameter p) mean std pos in
    let '(l0, pos1) := Linear_init (Cartpole.net_0 p) mean std pos0 in
    let '(l2, pos2) := Linear_init (Cartpole.net_2 p) mean std pos1 in
    let '(l4, pos3) := Linear_init (Cartpole.net_4 p) mean std pos2 in
    (Cartpole.mkPolicy l0 l2 l4 ls, pos3).

(** Modelled from the spec: [Model.init_parameters] on the value
    model, whose parameters are those of its three layers (library
    code that is not among the source files, on which the
    specification is silent; the model follows the comment at the call
    site, line 77). *)
Definition Value_init_parameters (v : Cartpole.Value) (mean std : R)
  : Gen Cartpole.Value :=
  fun pos =>
    let '(l0, pos1) := Linear_init (Cartpole.v_net_0 v) mean std pos in
    let '(l2, pos2) := Linear_init (Cartpole.v_net_2 v) mean std pos1 in
    let '(l4, pos3) := Linear_init (Cartpole.v_net_4 v) mean std pos2 in
    (Cartpole.mkValue l0 l2 l4, pos3).

End Init.

End Skrl.

(** ** The models of the scripts at the time training starts *)

Module Models.
Import Torch.

(** All the entries of a layer, of a policy and of a value model. *)
Definition Linear_parameters (l : Linear) : list R :=
  concat (weight l) ++ bias l.

Definition Policy_parameters (p : Cartpole.Policy) : list R :=
  Cartpole.log_std_parameter p ++ Linear_parameters (Cartpole.net_0 p)
    ++ Linear_parameters (Cartpole.net_2 p)
    ++ Linear_parameters (Cartpole.net_4 p).

Definition Value_parameters (v : Cartpole.Value) : list R :=
  Linear_parameters (Cartpole.v_net_0 v)
    ++ Linear_parameters (Cartpole.v_net_2 v)
    ++ Linear_parameters (Cartpole.v_net_4 v).

(** [n] consecutive draws from position [pos], scaled as [normal_]
    scales them. *)
Definition draws (randn : nat -> R) (mean std : R) (pos n : nat) : list R :=
  (fun i => (mean + std * randn i)%R) <$> seq pos n.

(** [trpo_cartpole.py], lines 74-79: the dictionary of the two
    constructed models, and the loop over its values (policy first)
    that initialises their parameters with mean 0.0 and std 0.1. *)
Definition models_trpo (randn : nat -> R)
    (policy : Cartpole.Policy) (value : Cartpole.Value)
  : Skrl.Gen (Cartpole.Policy * Cartpole.Value) :=
  fun pos =>
    let '(policy', pos1) :=
      Skrl.Policy_init_parameters randn policy 0%R (1 / 10)%R pos in
    let '(value', pos2) :=
      Skrl.Value_init_parameters randn value 0%R (1 / 10)%R pos1 in
    ((policy', value'), pos2).

(** [a2c_gym_pendulumnovel.py], lines 74-76: the models are handed to
    the agent as constructed. *)
Definition models_a2c (policy : Pendulum.Policy) (value : Pendulum.Value)
  : Pendulum.Policy * Pendulum.Value :=
  (policy, value).

End Models.

(** ** Concrete inputs *)

Module Examples.
Import Torch.

(** A Pendulum policy (3 observations, 1 action) with all entries zero. *)
Definition pendulum_policy : Pendulum.Policy :=
  Pendulum.Policy_new 3 1
    (replicate 64 (replicate 3 0%R)) (replicate 64 0%R)
    (replicate 64 (replicate 64 0%R)) (replicate 64 0%R)
    [replicate 64 0%R] [0%R].

(** A Cartpole policy and value model (4 observations, 1 action) as
    constructed, with all layer entries zero. *)
Definition cartpole_policy : Cartpole.Policy :=
  Cartpole.Policy_new 4 1
    (replicate 32 (replicate 4 0%R)) (replicate 32 0%R)
    (replicate 32 (replicate 32 0%R)) (replicate 32 0%R)
    [replicate 32 0%R] [0%R].

Definition cartpole_value : Cartpole.Value :=
  Cartpole.Value_new 4
    (replicate 32 (replicate 4 0%R)) (replicate 32 0%R)
    (replicate 32 (replicate 32 0%R)) (replicate 32 0%R)
    [replicate 32 0%R] [0%R].

(** A batch of one Pendulum state, as the [inputs] dictionary. *)
Definition pendulum_inputs : gmap string (list (list R)) :=
  {[ "states" := [[1%R; 0%R; 0%R]] ]}.

(** A generator whose every draw is 1. *)
Definition ones : nat -> R := fun _ => 1%R.

(** Loaders on a world that counts the calls made: preview 4 is not
    installed and raises an [Exception], preview 2 returns. *)
Definition failing_preview4 (task_name : string) (w : nat)
  : Cartpole.outcome string * nat :=
  (Cartpole.Raised (Cartpole.mkPyException "No module named isaacgymenvs" true),
   S w).

Definition working_preview2 (task_name : string) (w : nat)
  : Cartpole.outcome string * nat :=
  (Cartpole.Returned task_name, S w).

(** A default configuration in the style of the library's: location 1
    is the configuration, location 2 its ["experiment"] dictionary. *)
Definition default_experiment : gmap string Py.value :=
  {[ "directory" := Py.VStr ""; "experiment_name" := Py.VStr "";
     "write_interval" := Py.VInt 250; "checkpoint_interval" := Py.VInt 1000 ]}.

Definition default_config : gmap string Py.value :=
  {[ "rollouts" := Py.VInt 16; "mini_batches" := Py.VInt 1;
     "discount_factor" := Py.VFloat 99 (-2);
     "rewards_shaper" := Py.VNone;
     "experiment" := Py.VRef 2%positive ]}.

Definition default_heap : gmap positive (gmap string Py.value) :=
  {[ 1%positive := default_config; 2%positive := default_experiment ]}.

End Examples.

(** ** Shapes of the value models and of constructor arguments *)

Module Shapes.
Import Torch.

(** A matrix with [rows] rows of [cols] entries. *)
Definition matrix_shaped (w : list (list R)) (rows cols : nat) : Prop :=
  length w = rows /\ Forall (fun row => length row = cols) w.

(** The shape fixed by [Value.__init__] of the A2C script, lines 42-46. *)
Definition Pendulum_Value_shaped (self : Pendulum.Value)
    (num_observations : nat) : Prop :=
  Linear_shaped (Pendulum.v_net_0 self) /\
  Linear_shaped (Pendulum.v_net_2 self) /\
  Linear_shaped (Pendulum.v_net_4 self) /\
  in_features (Pendulum.v_net_0 self) = num_observations /\
  out_features (Pendulum.v_net_0 self) = 64 /\
  in_features (Pendulum.v_net_2 self) = 64 /\
  out_features (Pendulum.v_net_2 self) = 64 /\
  in_features (Pendulum.v_net_4 self) = 64 /\
  out_features (Pendulum.v_net_4 self) = 1.

(** The shape fixed by [Value.__init__] of the TRPO script, lines 44-48. *)
Definition Cartpole_Value_shaped (self : Cartpole.Value)
    (num_observations : nat) : Prop :=
  Linear_shaped (Cartpole.v_net_0 self) /\
  Linear_shaped (Cartpole.v_net_2 self) /\
  Linear_shaped (Cartpole.v_net_4 self) /\
  in_features (Cartpole.v_net_0 self) = num_observations /\
  out_features (Cartpole.v_net_0 self) = 32 /\
  in_features (Cartpole.v_net_2 self) = 32 /\
  out_features (Cartpole.v_net_2 self) = 32 /\
  in_features (Cartpole.v_net_4 self) = 32 /\
  out_features (Cartpole.v_net_4 self) = 1.

End Shapes.

(** ** More concrete inputs *)

Module MoreExamples.

(** A Pendulum value model (3 observations) with all entries zero. *)
Definition pendulum_value : Pendulum.Value :=
  Pendulum.mkValue
    (Torch.mkLinear 3 64 (replicate 64 (replicate 3 0%R)) (replicate 64 0%R))
    (Torch.mkLinear 64 64 (replicate 64 (replicate 64 0%R)) (replicate 64 0%R))
    (Torch.mkLinear 64 1 [replicate 64 0%R] [0%R]).

(** Default configurations that are not as the scripts expect: one
    without an ["experiment"] entry, one whose ["experiment"] entry is
    [None]. *)
Definition heap_without_experiment : gmap positive (gmap string Py.value) :=
  {[ 1%positive := {[ "rollouts" := Py.VInt 16 ]} ]}.

Definition heap_with_experiment_none : gmap positive (gmap string Py.value) :=
  {[ 1%positive := {[ "rollouts" := Py.VInt 16; "experiment" := Py.VNone ]} ]}.

(** A preview 3/4 loader interrupted from the keyboard: it raises
    [KeyboardInterrupt], which is a [BaseException] and not an
    [Exception], and whose [str] is empty. *)
Definition interrupted_preview4 (task_name : string) (w : nat)
  : Cartpole.outcome string * nat :=
  (Cartpole.Raised (Cartpole.mkPyException "" false), S w).

End MoreExamples.

(** ** Reasoning about statements that may raise *)

Module Outcome.
Import Py.

(** [wp m h Phi]: what statement [m] gives from heap [h], an error or a
    result with the final heap, satisfies [Phi]. *)
Definition wp {A} (m : M A) (h : heap)
    (Phi : error + (A * heap) -> Prop) : Prop :=
  Phi (m h).

(** The last three statements of the A2C configuration block (lines
    100-101 and the value of the block) and of the TRPO block (lines
    97-98). *)
Definition a2c_experiment_part (cfg_a2c : loc) : M loc :=
  setitem2 cfg_a2c "experiment" "write_interval" (VInt 500) ;;
  setitem2 cfg_a2c "experiment" "checkpoint_interval" (VInt 5000) ;;
  ret cfg_a2c.

Definition trpo_experiment_part (cfg_trpo : loc) : M loc :=
  setitem2 cfg_trpo "experiment" "write_interval" (VInt 16) ;;
  setitem2 cfg_trpo "experiment" "checkpoint_interval" (VInt 125) ;;
  ret cfg_trpo.

(** The top-level dictionary of the A2C configuration after lines
    82-98, over the default [d], with the three keyword dictionaries at
    [kw1], [kw2] and [kw3]. *)
Definition a2c_top (d : gmap string value) (kw1 kw2 kw3 : loc)
  : gmap string value :=
  <["value_preprocessor_kwargs" := VRef kw3]>
  (<["value_preprocessor" := VObj "RunningStandardScaler"]>
  (<["state_preprocessor_kwargs" := VRef kw2]>
  (<["state_preprocessor" := VObj "RunningStandardScaler"]>
  (<["entropy_loss_scale" := VFloat 0 0]>
  (<["grad_norm_clip" := VFloat 5 (-1)]>
  (<["learning_starts" := VInt 0]>
  (<["random_timesteps" := VInt 0]>
  (<["learning_rate_scheduler_kwargs" := VRef kw1]>
  (<["learning_rate_scheduler" := VObj "KLAdaptiveRL"]>
  (<["learning_rate" := VFloat 1 (-3)]>
  (<["lambda" := VFloat 95 (-2)]>
  (<["discount_factor" := VFloat 9 (-1)]>
  (<["mini_batches" := VInt 32]>
  (<["learning_epochs" := VInt 10]>
  (<["rollouts" := VInt 1024]> d))))))))))))))).

(** The top-level dictionary of the TRPO configuration after lines
    85-95. *)
Definition trpo_top (d : gmap string value) (kw1 kw2 : loc)
  : gmap string value :=
  <["value_preprocessor_kwargs" := VRef kw2]>
  (<["value_preprocessor" := VObj "RunningStandardScaler"]>
  (<["state_preprocessor_kwargs" := VRef kw1]>
  (<["state_preprocessor" := VObj "RunningStandardScaler"]>
  (<["lambda" := VFloat 95 (-2)]>
  (<["value_loss_scale" := VFloat 2 0]>
  (<["grad_norm_clip" := VFloat 5 (-1)]>
  (<["mini_batches" := VInt 2]>
  (<["learning_epochs" := VInt 6]>
  (<["rollouts" := VInt 16]> d))))))))).

(** The keys the two blocks assign at top level. *)
Definition a2c_keys : list string := (Config.a2c_overrides VNone VNone).*1.
Definition trpo_keys : list string := (Config.trpo_overrides VNone VNone).*1.

(** The values on which Python refuses an item assignment [v[k] = x]
    with [TypeError]: [None], booleans, integers, floats and strings.
    (An object of the library may define [__setitem__]; a dictionary
    accepts the assignment.) *)
Definition no_item_assignment (v : value) : Prop :=
  match v with
  | VNone | VBool _ | VInt _ | VFloat _ _ | VStr _ => True
  | VObj _ | VRef _ => False
  end.

End Outcome.

(** * Properties *)

Section Masking.
Import Pendulum.
Local Open Scope R_scope.

Lemma observation_3 self (x y w : R) :
  observation self [x; y; w] = Some [x; y; 0].
Proof.
  unfold observation, Numpy.multiply. simpl.
  f_equal. f_equal; [lra|]. f_equal; [lra|]. f_equal. lra.
Qed.

Lemma length_3_inv {A} (l : list A) :
  length l = 3%nat -> exists x y w, l = [x; y; w].
Proof.
  destruct l as [|x [|y [|w [|? ?]]]]; simpl; try discriminate.
  intros _. by exists x, y, w.
Qed.

(** C2: on every observation of the expected shape (three entries: x,
    y, angular velocity) the masking transform returns a vector of
    three entries whose third entry is zero and whose other entries
    are those of the input. *)
Theorem observation_masks_velocity (self : NoVelocityWrapper) (obs : list R) :
  length obs = 3%nat ->
  exists r, observation self obs = Some r /\ length r = 3%nat /\
            r !! 2%nat = Some 0 /\
            r !! 0%nat = obs !! 0%nat /\ r !! 1%nat = obs !! 1%nat /\
            forall i : nat, i <> 2%nat -> r !! i = obs !! i.
Proof.
  intros (x & y & w & ->)%length_3_inv.
  exists [x; y; 0]. split; [apply observation_3|].
  repeat split.
  intros [|[|[|i]]] Hi; try reflexivity. congruence.
Qed.

(** C6: the masking transform never fails on an observation of the
    expected shape, and its result depends on the observation only:
    whatever the wrapper objects, equal observations give equal
    results. *)
Theorem observation_pure (self1 self2 : NoVelocityWrapper) (obs1 obs2 : list R) :
  length obs1 = 3%nat -> obs1 = obs2 ->
  exists r, observation self1 obs1 = Some r /\ observation self2 obs2 = Some r.
Proof.
  intros (x & y & w & ->)%length_3_inv <-.
  exists [x; y; 0]. split; apply observation_3.
Qed.

(** C9: the masking transform is idempotent on observations of the
    expected shape: it returns, and applying it to its result returns
    that result again. *)
Theorem observation_idempotent (self : NoVelocityWrapper) (obs : list R) :
  length obs = 3%nat ->
  exists r, observation self obs = Some r /\ observation self r = Some r /\
            observation self obs ≫= observation self = observation self obs.
Proof.
  intros (x & y & w & ->)%length_3_inv.
  exists [x; y; 0]. rewrite !observation_3. simpl.
  rewrite observation_3. repeat split.
Qed.

End Masking.

(** The masking of the velocity on the observation (1, 2, 3). *)
Lemma observation_masks_velocity_witness :
  length [1%R; 2%R; 3%R] = 3 /\
  exists r, Pendulum.observation (Pendulum.mkNoVelocityWrapper "Pendulum-v1")
              [1%R; 2%R; 3%R] = Some r /\ length r = 3 /\
            r !! 2 = Some 0%R /\
            r !! 0 = [1%R; 2%R; 3%R] !! 0 /\ r !! 1 = [1%R; 2%R; 3%R] !! 1 /\
            forall i : nat, i <> 2 -> r !! i = [1%R; 2%R; 3%R] !! i.
Proof.
  split; [reflexivity|].
  apply (observation_masks_velocity _ [1%R; 2%R; 3%R]). reflexivity.
Defined.

(** Two wrapper objects on the observation (1, 2, 3). *)
Lemma observation_pure_witness :
  length [1%R; 2%R; 3%R] = 3 /\
  exists r, Pendulum.observation (Pendulum.mkNoVelocityWrapper "a")
              [1%R; 2%R; 3%R] = Some r /\
            Pendulum.observation (Pendulum.mkNoVelocityWrapper "b")
              [1%R; 2%R; 3%R] = Some r.
Proof.
  split; [reflexivity|].
  apply (observation_pure _ _ [1%R; 2%R; 3%R]); reflexivity.
Defined.

(** Masking the observation (1, 2, 3) twice. *)
Lemma observation_idempotent_witness :
  length [1%R; 2%R; 3%R] = 3 /\
  exists r, Pendulum.observation (Pendulum.mkNoVelocityWrapper "Pendulum-v1")
              [1%R; 2%R; 3%R] = Some r /\
            Pendulum.observation (Pendulum.mkNoVelocityWrapper "Pendulum-v1") r
              = Some r /\
            Pendulum.observation (Pendulum.mkNoVelocityWrapper "Pendulum-v1")
              [1%R; 2%R; 3%R]
              ≫= Pendulum.observation (Pendulum.mkNoVelocityWrapper "Pendulum-v1")
            = Pendulum.observation (Pendulum.mkNoVelocityWrapper "Pendulum-v1")
                [1%R; 2%R; 3%R].
Proof.
  split; [reflexivity|].
  apply (observation_idempotent _ [1%R; 2%R; 3%R]). reflexivity.
Defined.

(** ** The policies *)

Section Policies.
Import Torch.
Local Open Scope R_scope.

Lemma tanh_bounds (x : R) : -1 < tanh x < 1.
Proof.
  unfold tanh, sinh, cosh.
  pose proof (exp_pos x) as Hp. pose proof (exp_pos (- x)) as Hn.
  set (a := exp x) in *. set (b := exp (- x)) in *.
  replace ((a - b) / 2 / ((a + b) / 2)) with ((a - b) / (a + b))
    by (field; lra).
  assert (Hab : 0 < a + b) by lra.
  split.
  - apply (Rmult_lt_reg_r (a + b)); [done|].
    unfold Rdiv. rewrite Rmult_assoc, Rinv_l by lra. lra.
  - apply (Rmult_lt_reg_r (a + b)); [done|].
    unfold Rdiv. rewrite Rmult_assoc, Rinv_l by lra. lra.
Qed.

Lemma scaled_tanh_bounds (t : list (list R)) :
  Forall (Forall (fun a => -2 <= a <= 2)) (Pendulum.scaled_tanh t).
Proof.
  unfold Pendulum.scaled_tanh.
  apply Forall_forall. intros row (r0 & -> & _)%list_elem_of_fmap.
  apply Forall_forall. intros a (v & -> & _)%list_elem_of_fmap.
  pose proof (tanh_bounds v). lra.
Qed.

(** A layer accepts every row of its input width and returns a row of
    its output width. *)
Lemma Linear_forward_shaped (l : Linear) (x : list R) :
  Linear_shaped l -> length x = in_features l ->
  exists y, Linear_forward l x = Some y /\ length y = out_features l.
Proof.
  intros (Hw & Hb & _) Hx. unfold Linear_forward.
  rewrite decide_True by done. eexists. split; [done|].
  rewrite length_zip_with. lia.
Qed.

Lemma length_ReLU x : length (ReLU x) = length x.
Proof. unfold ReLU. apply length_map. Qed.

Lemma length_ELU x : length (ELU x) = length x.
Proof. unfold ELU. apply length_map. Qed.

Lemma Pendulum_net_row_total p n_obs n_act x :
  Pendulum.Policy_shaped p n_obs n_act -> length x = n_obs ->
  exists y, Pendulum.net_row p x = Some y /\ length y = n_act.
Proof.
  intros (S0 & S2 & S4 & I0 & O0 & I2 & O2 & I4 & O4) Hx.
  unfold Pendulum.net_row.
  destruct (Linear_forward_shaped _ x S0) as (h0 & -> & L0); [lia|].
  destruct (Linear_forward_shaped _ (ReLU h0) S2) as (h2 & E2 & L2);
    [rewrite length_ReLU; lia|].
  destruct (Linear_forward_shaped _ (ReLU h2) S4) as (y & E4 & L4);
    [rewrite length_ReLU; lia|].
  simpl. rewrite E2. simpl. rewrite E4. exists y. split; [done|lia].
Qed.

Lemma Cartpole_net_row_total q n_obs n_act x :
  Cartpole.Policy_shaped q n_obs n_act -> length x = n_obs ->
  exists h2, Cartpole.net_row q x
             = Linear_forward (Cartpole.net_4 q) (ELU h2) /\
             length h2 = 32%nat.
Proof.
  intros (S0 & S2 & S4 & I0 & O0 & I2 & O2 & I4 & O4) Hx.
  unfold Cartpole.net_row.
  destruct (Linear_forward_shaped _ x S0) as (h0 & -> & L0); [lia|].
  destruct (Linear_forward_shaped _ (ELU h0) S2) as (h2 & E2 & L2);
    [rewrite length_ELU; lia|].
  simpl. rewrite E2. simpl. exists h2. split; [done|lia].
Qed.

Lemma dot_zero (n : nat) (x : list R) : dot (replicate n 0) x = 0.
Proof.
  unfold dot. revert x. induction n as [|n IH]; intros [|v x]; simpl;
    try reflexivity.
  rewrite IH. lra.
Qed.

(** C1 (as amended): the Pendulum policy accepts every batch of states
    of the environment's width, its action output is twice the
    hyperbolic tangent of the network output and every entry lies in
    [-2, 2]; the Cartpole policy returns the network output as it
    is. *)
Theorem policy_action_bounds (p : Pendulum.Policy) (q : Cartpole.Policy)
    (inputs : gmap string (list (list R))) (role : string)
    (states taken_actions : list (list R)) (n_obs n_act : nat) :
  Pendulum.Policy_shaped p n_obs n_act ->
  inputs !! "states" = Some states ->
  Forall (fun s => length s = n_obs) states ->
  (exists out,
      Pendulum.net p states = Some out /\
      Pendulum.compute p inputs role
      = Some (map (map (fun v => 2 * tanh v)) out,
              Pendulum.log_std_parameter p, ∅) /\
      Forall (Forall (fun a => -2 <= a <= 2))
             (map (map (fun v => 2 * tanh v)) out)) /\
  Cartpole.compute q states taken_actions
  = (fun out => (out, Cartpole.log_std_parameter q)) <$> Cartpole.net q states.
Proof.
  intros Hp Hin Hst. split.
  - assert (is_Some (Pendulum.net p states)) as [out Hout].
    { unfold Pendulum.net. apply mapM_is_Some.
      eapply Forall_impl; [exact Hst|]. intros x Hx. simpl.
      destruct (Pendulum_net_row_total p n_obs n_act x Hp Hx) as (y & -> & _).
      done. }
    exists out. split; [done|]. split.
    + unfold Pendulum.compute. rewrite Hin. simpl. rewrite Hout. done.
    + apply scaled_tanh_bounds.
  - unfold Cartpole.compute. by destruct (Cartpole.net q states).
Qed.

(** C1, counterexample: no pair of finite bounds holds the action
    output of every Cartpole policy (4 observations, 1 action): with
    the last layer's weights zero and its bias above the upper bound,
    the output is above the upper bound. *)
Lemma cartpole_policy_unbounded :
  ~ (exists lo hi : R,
        forall (q : Cartpole.Policy) (states taken_actions out : list (list R))
               (log_std : list R),
          Cartpole.Policy_shaped q 4 1 ->
          Forall (fun s => length s = 4%nat) states ->
          Cartpole.compute q states taken_actions = Some (out, log_std) ->
          Forall (Forall (fun a => lo <= a <= hi)) out).
Proof.
  intros (lo & hi & H).
  set (q := Cartpole.Policy_new 4 1
              (replicate 32 (replicate 4 0)) (replicate 32 0)
              (replicate 32 (replicate 32 0)) (replicate 32 0)
              [replicate 32 0] [hi + 1]).
  assert (Hq : Cartpole.Policy_shaped q 4 1).
  { unfold Cartpole.Policy_shaped, Linear_shaped. simpl.
    repeat split; try reflexivity;
      repeat (apply Forall_cons; split; [reflexivity|]); by apply Forall_nil. }
  destruct (Cartpole_net_row_total q 4 1 [0; 0; 0; 0] Hq eq_refl)
    as (h2 & Hrow & Hh2).
  assert (Hout : Cartpole.compute q [[0; 0; 0; 0]] []
                 = Some ([[0 + (hi + 1)]], [0])).
  { assert (Hnet : Cartpole.net q [[0; 0; 0; 0]] = Some [[0 + (hi + 1)]]).
    { apply mapM_Some_2. constructor; [|constructor].
      rewrite Hrow. unfold Linear_forward.
      rewrite decide_True by (rewrite length_ELU; exact Hh2).
      change (weight (Cartpole.net_4 q)) with [replicate 32 0].
      change (bias (Cartpole.net_4 q)) with [hi + 1].
      cbn [zip_with]. by rewrite dot_zero. }
    unfold Cartpole.compute. by rewrite Hnet. }
  assert (Hst : Forall (fun s : list R => length s = 4%nat) [[0; 0; 0; 0]])
    by (by repeat constructor).
  specialize (H q [[0; 0; 0; 0]] [] _ _ Hq Hst Hout).
  apply Forall_cons in H as [H _]. apply Forall_cons in H as [H _]. lra.
Qed.

End Policies.

(** The two example policies on a batch of one state. *)
Lemma policy_action_bounds_witness :
  (exists out,
      Pendulum.net Examples.pendulum_policy [[1%R; 0%R; 0%R]] = Some out /\
      Pendulum.compute Examples.pendulum_policy Examples.pendulum_inputs "policy"
      = Some (map (map (fun v => (2 * tanh v)%R)) out,
              Pendulum.log_std_parameter Examples.pendulum_policy, ∅) /\
      Forall (Forall (fun a => (-2 <= a <= 2)%R))
             (map (map (fun v => (2 * tanh v)%R)) out)) /\
  Cartpole.compute Examples.cartpole_policy [[1%R; 0%R; 0%R]] []
  = (fun out => (out, Cartpole.log_std_parameter Examples.cartpole_policy))
      <$> Cartpole.net Examples.cartpole_policy [[1%R; 0%R; 0%R]].
Proof.
  apply (policy_action_bounds Examples.pendulum_policy Examples.cartpole_policy
           Examples.pendulum_inputs "policy" [[1%R; 0%R; 0%R]] [] 3 1).
  - unfold Pendulum.Policy_shaped, Torch.Linear_shaped. simpl.
    repeat split; try reflexivity;
      repeat (apply Forall_cons; split; [reflexivity|]); by apply Forall_nil.
  - reflexivity.
  - repeat constructor.
Defined.

(** ** The environment loader *)

Section LoaderFallback.
Import Cartpole.
Context {Env World : Type}.
Variable load4 load2 : string -> World -> outcome Env * World.

(** C3 (as amended): the preview 2 loader is called exactly when the
    preview 3/4 loader raises an exception that is an instance of
    [Exception].  When the first loader returns, its environment is the
    result and nothing else happens.  When it raises an [Exception],
    the line "Isaac Gym (preview 3/4) failed: ", the text of the error,
    a line break and "Trying preview 2..." is printed, then the second
    loader is called on the world the first one left, and its outcome
    (environment or exception) and world are the block's.  When it
    raises something that is not an [Exception], that exception leaves
    the block: nothing is printed and the second loader is not
    called. *)
Theorem load_env_fallback (w w1 : World) (r4 : outcome Env) :
  load4 "Cartpole" w = (r4, w1) ->
  let '(r, w', trace) := load_env load4 load2 w in
  (Call_preview2 "Cartpole" ∈ trace <->
     exists e, r4 = Raised e /\ exc_is_Exception e = true) /\
  (forall env, r4 = Returned env ->
     r = Returned env /\ w' = w1 /\ trace = [Call_preview4 "Cartpole"]) /\
  (forall e, r4 = Raised e -> exc_is_Exception e = true ->
     (r, w') = load2 "Cartpole" w1 /\
     trace = [Call_preview4 "Cartpole";
              Print ("Isaac Gym (preview 3/4) failed: " ++ exc_str e
                     ++ String "010"%char "Trying preview 2...");
              Call_preview2 "Cartpole"]) /\
  (forall e, r4 = Raised e -> exc_is_Exception e = false ->
     r = Raised e /\ w' = w1 /\ trace = [Call_preview4 "Cartpole"]).
Proof.
  intros H4. unfold load_env. rewrite H4.
  destruct r4 as [env|e].
  - split; [|split; [|split]].
    + split.
      * intros Hin. apply list_elem_of_singleton in Hin. discriminate.
      * intros (e & He & _). discriminate.
    + by intros env' [= <-].
    + intros e [=].
    + intros e [=].
  - destruct (exc_is_Exception e) eqn:Hexc.
    + destruct (load2 "Cartpole" w1) as [r w2] eqn:H2.
      split; [|split; [|split]].
      * split; [intros _; by exists e|].
        intros _. rewrite !elem_of_cons. auto.
      * intros env [=].
      * by intros e' [= <-] _.
      * intros e' [= <-] ?. congruence.
    + split; [|split; [|split]].
      * split.
        -- intros Hin. apply list_elem_of_singleton in Hin. discriminate.
        -- intros (e' & [= <-] & He'). congruence.
      * intros env [=].
      * intros e' [= <-] He'. congruence.
      * by intros e' [= <-] _.
Qed.

End LoaderFallback.

(** The loader block when preview 4 raises and preview 2 loads. *)
Lemma load_env_fallback_witness :
  let '(r, w', trace) :=
    Cartpole.load_env Examples.failing_preview4 Examples.working_preview2 0 in
  (Cartpole.Call_preview2 "Cartpole" ∈ trace <->
     exists e, Cartpole.Raised
                 (Cartpole.mkPyException "No module named isaacgymenvs" true)
               = Cartpole.Raised (A:=string) e /\
               Cartpole.exc_is_Exception e = true) /\
  (forall env, Cartpole.Raised
                 (Cartpole.mkPyException "No module named isaacgymenvs" true)
               = Cartpole.Returned env ->
     r = Cartpole.Returned env /\ w' = 1 /\
     trace = [Cartpole.Call_preview4 "Cartpole"]) /\
  (forall e, Cartpole.Raised
               (Cartpole.mkPyException "No module named isaacgymenvs" true)
             = Cartpole.Raised (A:=string) e ->
     Cartpole.exc_is_Exception e = true ->
     (r, w') = Examples.working_preview2 "Cartpole" 1 /\
     trace = [Cartpole.Call_preview4 "Cartpole";
              Cartpole.Print
                ("Isaac Gym (preview 3/4) failed: " ++ Cartpole.exc_str e
                 ++ String "010"%char "Trying preview 2...");
              Cartpole.Call_preview2 "Cartpole"]) /\
  (forall e, Cartpole.Raised
               (Cartpole.mkPyException "No module named isaacgymenvs" true)
             = Cartpole.Raised (A:=string) e ->
     Cartpole.exc_is_Exception e = false ->
     r = Cartpole.Raised e /\ w' = 1 /\
     trace = [Cartpole.Call_preview4 "Cartpole"]).
Proof.
  apply (load_env_fallback Examples.failing_preview4 Examples.working_preview2
           0 1 _).
  reflexivity.
Defined.

(** C3, counterexample: a preview 3/4 loader that raises
    [KeyboardInterrupt] raises an exception, yet the preview 2 loader
    is not called: the clause catches [Exception] only. *)
Lemma load_env_no_retry_on_interrupt :
  ~ (Cartpole.Call_preview2 "Cartpole"
       ∈ (Cartpole.load_env MoreExamples.interrupted_preview4
            Examples.working_preview2 0).2
     <-> exists e,
           (MoreExamples.interrupted_preview4 "Cartpole" 0).1
           = Cartpole.Raised e).
Proof.
  intros [_ H].
  assert (Hin : Cartpole.Call_preview2 "Cartpole"
                  ∈ [Cartpole.Call_preview4 "Cartpole"])
    by (apply H; eexists; reflexivity).
  apply list_elem_of_singleton in Hin. discriminate.
Qed.

(** ** The rollout memory *)

Section RolloutMemory.
Import Skrl.
Context {T : Type}.
Implicit Types (m : RandomMemory T) (rows : list (list T)).

Lemma succ_mod (k n : nat) :
  0 < n ->
  S k mod n = if decide (n <= S (k mod n)) then 0 else S (k mod n).
Proof.
  intros Hn.
  pose proof (Nat.mod_upper_bound k n ltac:(lia)) as Hlt.
  pose proof (Nat.div_mod_eq k n) as Hk.
  generalize dependent (k mod n). generalize dependent (k / n).
  intros q r Hlt Hk. case_decide as Hw.
  - assert (S r = n) as Hi by lia.
    replace (S k) with ((q + 1) * n) by (rewrite Hk, <- Hi; ring).
    apply Nat.Div0.mod_mul.
  - symmetry. apply (Nat.mod_unique _ _ q); lia.
Qed.

Lemma length_omap_le {A B} (f : A -> option B) (l : list A) :
  length (omap f l) <= length l.
Proof.
  induction l as [|x l IH]; simpl; [lia|].
  change (list_omap A B f l) with (omap f l).
  destruct (f x); simpl; lia.
Qed.

Lemma length_bind_const {A B} (f : A -> list B) (l : list A) (c : nat) :
  (forall x, length (f x) = c) -> length (l ≫= f) = length l * c.
Proof.
  intros Hf. induction l as [|x l IH]; [done|].
  rewrite bind_cons, length_app, IH, Hf. simpl. lia.
Qed.

Lemma create_inv ms ne :
  0 < ms -> memory_inv ms ne 0 (create (T:=T) ms ne).
Proof.
  intros Hms. split; simpl; try done.
  - apply length_replicate.
  - by rewrite Nat.Div0.mod_0_l.
  - split; [done|lia].
Qed.

Lemma add_samples_inv ms ne k m row :
  0 < ms -> memory_inv ms ne k m -> memory_inv ms ne (S k) (add_samples m row).
Proof.
  intros Hms [Hsz Hne Hst Hidx Hfil].
  pose proof (Nat.mod_upper_bound k ms ltac:(lia)) as Hlt.
  unfold add_samples. rewrite Hsz, Hidx.
  pose proof (succ_mod k ms Hms) as Hs.
  pose proof (Nat.Div0.mod_le k ms) as Hle.
  case_decide as Hw; split; simpl; try done;
    try (by rewrite length_insert).
  - split; [lia|done].
  - rewrite Hfil. split; [lia|]. intros Hsk.
    destruct (decide (ms <= k)) as [|Hk]; [done|].
    rewrite Nat.mod_small in Hw by lia. lia.
Qed.

Lemma foldl_add_samples_inv ms ne rows :
  0 < ms ->
  memory_inv ms ne (length rows) (foldl add_samples (create ms ne) rows).
Proof.
  intros Hms. induction rows as [|row rows IH] using rev_ind.
  - by apply create_inv.
  - rewrite foldl_snoc, length_app. simpl.
    replace (length rows + 1) with (S (length rows)) by lia.
    by apply add_samples_inv.
Qed.

Lemma sample_all_NoDup m : NoDup (sample_all m).
Proof.
  unfold sample_all. apply NoDup_bind.
  - intros t1 t2 [t e] _ _ H1 H2.
    apply list_elem_of_bind in H1 as (e1 & H1 & _).
    apply list_elem_of_bind in H2 as (e2 & H2 & _).
    apply list_elem_of_singleton in H1, H2. congruence.
  - intros t _. apply NoDup_bind.
    + intros e1 e2 [t' e] _ _ H1 H2.
      apply list_elem_of_singleton in H1, H2. congruence.
    + intros e _. apply NoDup_singleton.
    + apply NoDup_seq.
  - apply NoDup_seq.
Qed.

Lemma sample_all_length m : length (sample_all m) = size m.
Proof.
  unfold sample_all, size.
  rewrite (length_bind_const _ _ (num_envs m)).
  - rewrite length_seq. by destruct (filled m).
  - intros t. rewrite (length_bind_const _ _ 1) by done.
    rewrite length_seq. lia.
Qed.

Lemma sample_all_keys m t e :
  (t, e) ∈ sample_all m ->
  t < (if filled m then memory_size m else memory_index m) /\ e < num_envs m.
Proof.
  unfold sample_all.
  intros (t' & (e' & Hk & He)%list_elem_of_bind & Ht)%list_elem_of_bind.
  apply list_elem_of_singleton in Hk. injection Hk as -> ->.
  apply elem_of_seq in Ht, He. lia.
Qed.

(** C7: after any sequence of appends to a memory of capacity
    [memory_size] the store still has [memory_size] slots, holds at
    most [memory_size] transitions for every environment and
    [memory_size * num_envs] in all; the write position is the number
    of appends modulo the capacity (it wraps around), the "full" signal
    is up exactly from [memory_size] appends on, the next append
    overwrites the slot at the write position, and the keys an update
    consumes are distinct keys of written slots. *)
Theorem rollout_memory_bounded (memory_size num_envs : nat) rows :
  0 < memory_size ->
  let m := foldl add_samples (create memory_size num_envs) rows in
  length (storage m) = memory_size /\
  (forall e, stored m e <= memory_size) /\
  size m <= memory_size * num_envs /\
  memory_index m = length rows mod memory_size /\
  (filled m = true <-> memory_size <= length rows) /\
  (forall row, storage (add_samples m row)
               = <[length rows mod memory_size := Some row]> (storage m)) /\
  NoDup (sample_all m) /\
  length (sample_all m) = size m /\
  (forall t e, (t, e) ∈ sample_all m -> t < memory_size /\ e < num_envs).
Proof.
  intros Hms m.
  destruct (foldl_add_samples_inv memory_size num_envs rows Hms)
    as [Hsz Hne Hst Hidx Hfil]. fold m in Hsz, Hne, Hst, Hidx, Hfil.
  pose proof (Nat.mod_upper_bound (length rows) memory_size ltac:(lia)) as Hlt.
  split; [done|]. split.
  { intros e. unfold stored. rewrite <- Hst. apply length_omap_le. }
  split.
  { unfold size. rewrite Hsz, Hne, Hidx. destruct (filled m); [lia|nia]. }
  split; [done|]. split; [done|]. split.
  { intros row. unfold add_samples. rewrite Hidx. by case_decide. }
  split; [apply sample_all_NoDup|]. split; [apply sample_all_length|].
  intros t e [Ht He]%sample_all_keys. rewrite Hsz, Hidx, Hne in *.
  destruct (filled m); lia.
Qed.

(** One rollout of exactly [memory_size] appends fills the memory. *)
Lemma full_after_memory_size (memory_size num_envs : nat) rows :
  0 < memory_size -> length rows = memory_size ->
  let m := foldl add_samples (create memory_size num_envs) rows in
  filled m = true /\ memory_index m = 0 /\
  size m = memory_size * num_envs /\
  length (sample_all m) = memory_size * num_envs.
Proof.
  intros Hms Hlen m.
  destruct (foldl_add_samples_inv memory_size num_envs rows Hms)
    as [Hsz Hne Hst Hidx Hfil]. fold m in Hsz, Hne, Hst, Hidx, Hfil.
  assert (Hf : filled m = true) by (apply Hfil; lia).
  split; [done|]. split.
  { rewrite Hidx, Hlen. apply Nat.Div0.mod_same. }
  assert (size m = memory_size * num_envs) as Hsize
    by (unfold size; by rewrite Hf, Hsz, Hne).
  split; [done|]. by rewrite sample_all_length.
Qed.

End RolloutMemory.

(** Twenty appends to a memory of
    sixteen slots for two environments. *)
Lemma rollout_memory_bounded_witness :
  let m := foldl Skrl.add_samples (Skrl.create 16 2)
             (replicate 20 [true; false]) in
  length (Skrl.storage m) = 16 /\
  (forall e, Skrl.stored m e <= 16) /\
  Skrl.size m <= 16 * 2 /\
  Skrl.memory_index m = length (replicate 20 [true; false]) mod 16 /\
  (Skrl.filled m = true <-> 16 <= length (replicate 20 [true; false])) /\
  (forall row, Skrl.storage (Skrl.add_samples m row)
               = <[length (replicate 20 [true; false]) mod 16 := Some row]>
                   (Skrl.storage m)) /\
  NoDup (Skrl.sample_all m) /\
  length (Skrl.sample_all m) = Skrl.size m /\
  (forall t e, (t, e) ∈ Skrl.sample_all m -> t < 16 /\ e < 2).
Proof.
  apply (rollout_memory_bounded 16 2 (replicate 20 [true; false])). lia.
Defined.

(** ** Parameter initialisation in the TRPO script *)

Section InitParameters.
Import Torch Skrl Models.
Variable randn : nat -> R.
Variables mean std : R.
Local Open Scope list_scope.
#[local] Abbreviation draws := (Models.draws randn mean std).

Lemma draws_app pos a b : draws pos (a + b) = draws pos a ++ draws (pos + a) b.
Proof. unfold Models.draws. by rewrite seq_app, fmap_app. Qed.

Lemma length_draws pos n : length (draws pos n) = n.
Proof. unfold Models.draws. by rewrite length_fmap, length_seq. Qed.

Lemma normal_spec t pos :
  normal_ randn t mean std pos = (draws pos (length t), pos + length t).
Proof.
  unfold normal_, Models.draws. f_equal.
  apply (imap_seq t (fun i => (mean + std * randn i)%R) pos).
Qed.

Lemma normal_rows_spec t pos :
  let '(t', pos') := normal_rows randn t mean std pos in
  concat t' = draws pos (length (concat t)) /\
  pos' = pos + length (concat t) /\
  length <$> t' = length <$> t.
Proof.
  revert pos. induction t as [|row t IH]; intros pos.
  - simpl. split; [done|]. split; [lia|done].
  - cbn [normal_rows]. rewrite normal_spec.
    specialize (IH (pos + length row)).
    destruct (normal_rows randn t mean std (pos + length row)) as [t' pos'].
    destruct IH as (IH1 & IH2 & IH3).
    rewrite fmap_cons, (fmap_cons length row t). cbn [concat].
    rewrite length_app, draws_app, IH1, length_draws, IH3.
    split; [done|]. split; [lia|done].
Qed.

Lemma Forall_length_fmap {A} (t t' : list (list A)) n :
  length <$> t' = length <$> t ->
  Forall (fun row => length row = n) t -> Forall (fun row => length row = n) t'.
Proof.
  revert t'. induction t as [|row t IH]; intros [|row' t'] Hl Ht;
    try done.
  injection Hl as Hrow Hl. apply Forall_cons in Ht as [Hr Ht].
  constructor; [congruence|]. by apply IH.
Qed.

Lemma Linear_init_spec l pos :
  let '(l', pos') := Linear_init randn l mean std pos in
  Linear_parameters l' = draws pos (length (Linear_parameters l)) /\
  pos' = pos + length (Linear_parameters l) /\
  in_features l' = in_features l /\ out_features l' = out_features l /\
  (Linear_shaped l -> Linear_shaped l').
Proof.
  unfold Linear_init, Linear_parameters.
  pose proof (normal_rows_spec (weight l) pos) as Hw.
  destruct (normal_rows randn (weight l) mean std pos) as [w pos1].
  destruct Hw as (Hw1 & -> & Hw3). rewrite normal_spec. simpl.
  rewrite length_app, draws_app, Hw1.
  split; [done|]. split; [lia|]. split; [done|]. split; [done|].
  intros (S1 & S2 & S3). unfold Linear_shaped. simpl.
  split; [|split].
  - rewrite <- S1, <- (length_fmap length w), Hw3. apply length_fmap.
  - by rewrite length_draws.
  - by apply (Forall_length_fmap (weight l)).
Qed.

Lemma Policy_init_parameters_spec p pos :
  let '(p', pos') := Policy_init_parameters randn p mean std pos in
  Policy_parameters p' = draws pos (length (Policy_parameters p)) /\
  pos' = pos + length (Policy_parameters p) /\
  (forall n a, Cartpole.Policy_shaped p n a -> Cartpole.Policy_shaped p' n a).
Proof.
  unfold Policy_init_parameters, Policy_parameters. rewrite normal_spec.
  pose proof (Linear_init_spec (Cartpole.net_0 p)
                (pos + length (Cartpole.log_std_parameter p))) as H0.
  destruct (Linear_init randn (Cartpole.net_0 p) mean std _) as [l0 pos1].
  destruct H0 as (P0 & -> & I0 & O0 & S0).
  pose proof (Linear_init_spec (Cartpole.net_2 p)
                (pos + length (Cartpole.log_std_parameter p)
                 + length (Linear_parameters (Cartpole.net_0 p)))) as H2.
  destruct (Linear_init randn (Cartpole.net_2 p) mean std _) as [l2 pos2].
  destruct H2 as (P2 & -> & I2 & O2 & S2).
  pose proof (Linear_init_spec (Cartpole.net_4 p)
                (pos + length (Cartpole.log_std_parameter p)
                 + length (Linear_parameters (Cartpole.net_0 p))
                 + length (Linear_parameters (Cartpole.net_2 p)))) as H4.
  destruct (Linear_init randn (Cartpole.net_4 p) mean std _) as [l4 pos3].
  destruct H4 as (P4 & -> & I4 & O4 & S4).
  simpl. split; [|split].
  - rewrite P0, P2, P4, !length_app, !draws_app.
    by rewrite ?Nat.add_assoc.
  - rewrite !length_app. lia.
  - intros n a (T0 & T2 & T4 & E). unfold Cartpole.Policy_shaped. simpl.
    rewrite I0, O0, I2, O2, I4, O4. auto.
Qed.

Lemma Value_init_parameters_spec v pos :
  let '(v', pos') := Value_init_parameters randn v mean std pos in
  Value_parameters v' = draws pos (length (Value_parameters v)) /\
  pos' = pos + length (Value_parameters v).
Proof.
  unfold Value_init_parameters, Value_parameters.
  pose proof (Linear_init_spec (Cartpole.v_net_0 v) pos) as H0.
  destruct (Linear_init randn (Cartpole.v_net_0 v) mean std _) as [l0 pos1].
  destruct H0 as (P0 & -> & _).
  pose proof (Linear_init_spec (Cartpole.v_net_2 v)
                (pos + length (Linear_parameters (Cartpole.v_net_0 v)))) as H2.
  destruct (Linear_init randn (Cartpole.v_net_2 v) mean std _) as [l2 pos2].
  destruct H2 as (P2 & -> & _).
  pose proof (Linear_init_spec (Cartpole.v_net_4 v)
                (pos + length (Linear_parameters (Cartpole.v_net_0 v))
                 + length (Linear_parameters (Cartpole.v_net_2 v)))) as H4.
  destruct (Linear_init randn (Cartpole.v_net_4 v) mean std _) as [l4 pos3].
  destruct H4 as (P4 & -> & _).
  simpl. split.
  - rewrite P0, P2, P4, !length_app, !draws_app.
    by rewrite ?Nat.add_assoc.
  - rewrite !length_app. lia.
Qed.

Lemma Value_init_parameters_shape v pos n :
  Shapes.Cartpole_Value_shaped v n ->
  Shapes.Cartpole_Value_shaped
    (Value_init_parameters randn v mean std pos).1 n.
Proof.
  intros (T0 & T2 & T4 & E). unfold Value_init_parameters.
  pose proof (Linear_init_spec (Cartpole.v_net_0 v) pos) as H0.
  destruct (Linear_init randn (Cartpole.v_net_0 v) mean std _) as [l0 pos1].
  destruct H0 as (_ & _ & I0 & O0 & S0).
  pose proof (Linear_init_spec (Cartpole.v_net_2 v) pos1) as H2.
  destruct (Linear_init randn (Cartpole.v_net_2 v) mean std _) as [l2 pos2].
  destruct H2 as (_ & _ & I2 & O2 & S2).
  pose proof (Linear_init_spec (Cartpole.v_net_4 v) pos2) as H4.
  destruct (Linear_init randn (Cartpole.v_net_4 v) mean std _) as [l4 pos3].
  destruct H4 as (_ & _ & I4 & O4 & S4).
  unfold Shapes.Cartpole_Value_shaped. simpl.
  rewrite I0, O0, I2, O2, I4, O4. auto.
Qed.

(** The policy's own parameter comes first. *)
Lemma Policy_init_parameters_log_std p pos :
  Cartpole.log_std_parameter (Policy_init_parameters randn p mean std pos).1
  = draws pos (length (Cartpole.log_std_parameter p)).
Proof.
  unfold Policy_init_parameters. rewrite normal_spec.
  destruct (Linear_init randn (Cartpole.net_0 p) mean std _) as [l0 pos1].
  destruct (Linear_init randn (Cartpole.net_2 p) mean std _) as [l2 pos2].
  destruct (Linear_init randn (Cartpole.net_4 p) mean std _) as [l4 pos3].
  done.
Qed.

End InitParameters.

Section ModelParameters.
Import Torch Skrl Models.
Local Open Scope list_scope.
Local Open Scope R_scope.



End ModelParameters.

(** ** Running statements on the heap *)

Section HeapRules.
Import Py.

Lemma runs_bind {A B} (m : M A) (k : A -> M B) h Q :
  runs m h (fun a h' => runs (k a) h' Q) -> runs (m ≫= k) h Q.
Proof.
  intros (a & h' & Hm & (b & h'' & Hk & HQ)).
  exists b, h''. split; [|done].
  unfold mbind, M_bind, bind. by rewrite Hm.
Qed.

Lemma runs_ret {A} (a : A) h (Q : A -> heap -> Prop) :
  Q a h -> runs (ret a) h Q.
Proof. intros HQ. by exists a, h. Qed.

Lemma runs_new_dict d h (Q : loc -> heap -> Prop) :
  (forall l, h !! l = None -> Q l (<[l := d]> h)) -> runs (new_dict d) h Q.
Proof.
  intros HQ. exists (fresh (dom h)), (<[fresh (dom h) := d]> h).
  split; [done|]. apply HQ, not_elem_of_dom, is_fresh.
Qed.

Lemma runs_dict_copy l d h (Q : loc -> heap -> Prop) :
  h !! l = Some d ->
  (forall l', h !! l' = None -> Q l' (<[l' := d]> h)) ->
  runs (dict_copy l) h Q.
Proof.
  intros Hl HQ. destruct (runs_new_dict d h Q HQ) as (a & h' & Hn & Ha).
  exists a, h'. split; [|done]. unfold dict_copy. by rewrite Hl.
Qed.

Lemma runs_setitem l k v d h (Q : unit -> heap -> Prop) :
  h !! l = Some d ->
  Q tt (<[l := <[k := v]> d]> h) ->
  runs (setitem l k v) h Q.
Proof.
  intros Hl HQ. exists tt, (<[l := <[k := v]> d]> h).
  split; [|done]. unfold setitem. by rewrite Hl.
Qed.

Lemma runs_setitem2 l k1 k2 v d l' d' h (Q : unit -> heap -> Prop) :
  h !! l = Some d -> d !! k1 = Some (VRef l') -> h !! l' = Some d' ->
  Q tt (<[l' := <[k2 := v]> d']> h) ->
  runs (setitem2 l k1 k2 v) h Q.
Proof.
  intros Hl Hk Hl' HQ. exists tt, (<[l' := <[k2 := v]> d']> h).
  split; [|done].
  unfold setitem2, bind, getitem, setitem. by rewrite Hl, Hk, Hl'.
Qed.

End HeapRules.

(** Facts about a location that is new in a heap built by insertions. *)
Ltac fresh_facts H :=
  repeat (apply lookup_insert_None in H as [H ?]).

Ltac heap_lookup :=
  repeat first
    [ apply lookup_insert_eq
    | rewrite lookup_insert_eq
    | rewrite lookup_insert_ne by (done || congruence) ];
  try done.

(** One statement of a configuration block. *)
Ltac run_step :=
  first
    [ apply runs_ret
    | apply runs_bind;
      first
        [ eapply runs_setitem; [heap_lookup; fail | rewrite ?insert_insert_eq ]
        | eapply runs_setitem2; [heap_lookup; fail | heap_lookup; fail
                                | heap_lookup; fail
                                | rewrite ?insert_insert_eq ]
        | apply runs_new_dict; let l := fresh "kw" in
                               let H := fresh "Hkw" in
                               intros l H; fresh_facts H ] ].

(** The facts about the finished configuration, read off the final heap. *)
Ltac overrides_hold Hin :=
  repeat (apply elem_of_cons in Hin as [Hin|Hin];
          [ injection Hin as -> ->; eexists; split;
            [ heap_lookup; fail
            | simpl; first [ reflexivity
                           | eexists; split; [reflexivity | heap_lookup] ] ]
          | ]);
  by apply elem_of_nil in Hin.

Ltac defaults_kept Hk :=
  simpl in Hk; rewrite !not_elem_of_cons in Hk;
  repeat match goal with H : _ /\ _ |- _ => destruct H end;
  by rewrite !lookup_insert_ne by done.

Section ConfigRuns.
Import Py Config.

Lemma cfg_a2c_runs (h : heap) ld le d e os dev :
  h !! ld = Some d -> d !! "experiment" = Some (VRef le) ->
  h !! le = Some e ->
  exists lc h' c,
    cfg_a2c ld os dev h = inr (lc, h') /\
    h !! lc = None /\ h' !! lc = Some c /\
    (forall k x, (k, x) ∈ a2c_overrides os dev ->
                 exists v, c !! k = Some v /\ holds h' v x) /\
    (forall k, k ∉ (a2c_overrides os dev).*1 -> c !! k = d !! k) /\
    h' !! le = Some (<["checkpoint_interval" := VInt 5000]>
                       (<["write_interval" := VInt 500]> e)) /\
    (forall l, l <> le -> is_Some (h !! l) -> h' !! l = h !! l).
Proof.
  intros Hd Hexp He.
  cut (runs (cfg_a2c ld os dev) h (fun lc h' => exists c,
    h !! lc = None /\ h' !! lc = Some c /\
    (forall k x, (k, x) ∈ a2c_overrides os dev ->
                 exists v, c !! k = Some v /\ holds h' v x) /\
    (forall k, k ∉ (a2c_overrides os dev).*1 -> c !! k = d !! k) /\
    h' !! le = Some (<["checkpoint_interval" := VInt 5000]>
                       (<["write_interval" := VInt 500]> e)) /\
    (forall l, l <> le -> is_Some (h !! l) -> h' !! l = h !! l))).
  { intros (lc & h' & Hrun & c & ?). by exists lc, h', c. }
  unfold cfg_a2c.
  apply runs_bind. eapply runs_dict_copy; [done|]. intros lc Hlc.
  assert (lc <> le) by congruence.
  do 19 run_step.
  assert (kw <> le /\ kw0 <> le /\ kw1 <> le) as (? & ? & ?)
    by (repeat split; congruence).
  do 3 run_step.
  eexists. split; [done|]. split; [heap_lookup; fail|].
  split; [intros k x Hin; unfold a2c_overrides in Hin; overrides_hold Hin|].
  split; [intros k Hk; defaults_kept Hk|].
  split; [heap_lookup; fail|].
  intros l Hl [x Hx].
  assert (l <> lc /\ l <> kw /\ l <> kw0 /\ l <> kw1) as (? & ? & ? & ?)
    by (repeat split; congruence).
  by rewrite !lookup_insert_ne by done.
Qed.

Lemma cfg_trpo_runs (h : heap) ld le d e os dev :
  h !! ld = Some d -> d !! "experiment" = Some (VRef le) ->
  h !! le = Some e ->
  exists lc h' c,
    cfg_trpo ld os dev h = inr (lc, h') /\
    h !! lc = None /\ h' !! lc = Some c /\
    (forall k x, (k, x) ∈ trpo_overrides os dev ->
                 exists v, c !! k = Some v /\ holds h' v x) /\
    (forall k, k ∉ (trpo_overrides os dev).*1 -> c !! k = d !! k) /\
    h' !! le = Some (<["checkpoint_interval" := VInt 125]>
                       (<["write_interval" := VInt 16]> e)) /\
    (forall l, l <> le -> is_Some (h !! l) -> h' !! l = h !! l).
Proof.
  intros Hd Hexp He.
  cut (runs (cfg_trpo ld os dev) h (fun lc h' => exists c,
    h !! lc = None /\ h' !! lc = Some c /\
    (forall k x, (k, x) ∈ trpo_overrides os dev ->
                 exists v, c !! k = Some v /\ holds h' v x) /\
    (forall k, k ∉ (trpo_overrides os dev).*1 -> c !! k = d !! k) /\
    h' !! le = Some (<["checkpoint_interval" := VInt 125]>
                       (<["write_interval" := VInt 16]> e)) /\
    (forall l, l <> le -> is_Some (h !! l) -> h' !! l = h !! l))).
  { intros (lc & h' & Hrun & c & ?). by exists lc, h', c. }
  unfold cfg_trpo.
  apply runs_bind. eapply runs_dict_copy; [done|]. intros lc Hlc.
  assert (lc <> le) by congruence.
  do 12 run_step.
  assert (kw <> le /\ kw0 <> le) as (? & ?) by (split; congruence).
  do 3 run_step.
  eexists. split; [done|]. split; [heap_lookup; fail|].
  split; [intros k x Hin; unfold trpo_overrides in Hin; overrides_hold Hin|].
  split; [intros k Hk; defaults_kept Hk|].
  split; [heap_lookup; fail|].
  intros l Hl [x Hx].
  assert (l <> lc /\ l <> kw /\ l <> kw0) as (? & ? & ?)
    by (repeat split; congruence).
  by rewrite !lookup_insert_ne by done.
Qed.

Lemma experiment_not_overridden os dev :
  ("experiment" ∉ (a2c_overrides os dev).*1) /\
  ("experiment" ∉ (trpo_overrides os dev).*1).
Proof.
  split; simpl; rewrite !not_elem_of_cons; repeat split; try done;
    apply not_elem_of_nil.
Qed.

Lemma cfg_a2c_configured (h : heap) ld le d x os dev :
  default_config_at h ld le d x ->
  exists lc h',
    cfg_a2c ld os dev h = inr (lc, h') /\
    configured h' lc le (a2c_overrides os dev) a2c_experiment_overrides d x.
Proof.
  intros (Hd & Hexp & Hx & Hne).
  destruct (cfg_a2c_runs h ld le d x os dev Hd Hexp Hx)
    as (lc & h' & c & Hrun & _ & Hc & Htop & Hrest & Hle & _).
  exists lc, h'. split; [done|].
  exists c, (<["checkpoint_interval" := VInt 5000]>
               (<["write_interval" := VInt 500]> x)).
  split; [done|]. split; [done|]. split; [done|].
  split; [rewrite Hrest; [done | apply experiment_not_overridden]|].
  split; [done|]. split.
  - intros k v Hin. unfold a2c_experiment_overrides in Hin.
    repeat (apply elem_of_cons in Hin as [Hin|Hin];
            [injection Hin as -> ->; heap_lookup|]).
    by apply elem_of_nil in Hin.
  - intros k Hk. defaults_kept Hk.
Qed.

Lemma cfg_trpo_configured (h : heap) ld le d x os dev :
  default_config_at h ld le d x ->
  exists lc h',
    cfg_trpo ld os dev h = inr (lc, h') /\
    configured h' lc le (trpo_overrides os dev) trpo_experiment_overrides d x.
Proof.
  intros (Hd & Hexp & Hx & Hne).
  destruct (cfg_trpo_runs h ld le d x os dev Hd Hexp Hx)
    as (lc & h' & c & Hrun & _ & Hc & Htop & Hrest & Hle & _).
  exists lc, h'. split; [done|].
  exists c, (<["checkpoint_interval" := VInt 125]>
               (<["write_interval" := VInt 16]> x)).
  split; [done|]. split; [done|]. split; [done|].
  split; [rewrite Hrest; [done | apply experiment_not_overridden]|].
  split; [done|]. split.
  - intros k v Hin. unfold trpo_experiment_overrides in Hin.
    repeat (apply elem_of_cons in Hin as [Hin|Hin];
            [injection Hin as -> ->; heap_lookup|]).
    by apply elem_of_nil in Hin.
  - intros k Hk. defaults_kept Hk.
Qed.

(** C4: after each script has copied the library's default
    configuration and made its assignments, every key it assigned
    holds the script's value (a dictionary display: a dictionary with
    the displayed contents), every other top-level key holds what the
    default holds, and in the ["experiment"] dictionary the two
    assigned keys hold the script's values and every other key keeps
    its default. *)
Theorem config_overrides_and_defaults
    (ha ht : heap) (la ea lt et : loc) (da xa dt xt : gmap string value)
    (os dev : value) :
  default_config_at ha la ea da xa ->
  default_config_at ht lt et dt xt ->
  (exists lc h',
      cfg_a2c la os dev ha = inr (lc, h') /\
      configured h' lc ea (a2c_overrides os dev) a2c_experiment_overrides
                 da xa) /\
  (exists lc h',
      cfg_trpo lt os dev ht = inr (lc, h') /\
      configured h' lc et (trpo_overrides os dev) trpo_experiment_overrides
                 dt xt).
Proof.
  intros Ha Ht. split.
  - by apply cfg_a2c_configured.
  - by apply cfg_trpo_configured.
Qed.

(** C8: the copy is shallow.  The finished configuration is a new
    object and the default's own dictionary is as it was, as is every
    other object that existed before; but the ["experiment"] entry of
    the copy and of the default refer to one dictionary, so after the
    script the default's ["experiment"] dictionary holds the script's
    [write_interval] and [checkpoint_interval]. *)
Theorem shallow_copy_shares_experiment
    (ha ht : heap) (la ea lt et : loc) (da xa dt xt : gmap string value)
    (os dev : value) :
  default_config_at ha la ea da xa ->
  default_config_at ht lt et dt xt ->
  (exists lc h',
      cfg_a2c la os dev ha = inr (lc, h') /\
      lc <> la /\ h' !! la = Some da /\
      getitem lc "experiment" h' = inr (VRef ea, h') /\
      getitem la "experiment" h' = inr (VRef ea, h') /\
      h' !! ea = Some (<["checkpoint_interval" := VInt 5000]>
                         (<["write_interval" := VInt 500]> xa)) /\
      (forall l, l <> ea -> is_Some (ha !! l) -> h' !! l = ha !! l)) /\
  (exists lc h',
      cfg_trpo lt os dev ht = inr (lc, h') /\
      lc <> lt /\ h' !! lt = Some dt /\
      getitem lc "experiment" h' = inr (VRef et, h') /\
      getitem lt "experiment" h' = inr (VRef et, h') /\
      h' !! et = Some (<["checkpoint_interval" := VInt 125]>
                         (<["write_interval" := VInt 16]> xt)) /\
      (forall l, l <> et -> is_Some (ht !! l) -> h' !! l = ht !! l)).
Proof.
  intros (Hda & Hea & Hxa & Hna) (Hdt & Het & Hxt & Hnt). split.
  - destruct (cfg_a2c_runs ha la ea da xa os dev Hda Hea Hxa)
      as (lc & h' & c & Hrun & Hfresh & Hc & _ & Hrest & Hle & Hframe).
    exists lc, h'. split; [done|]. split; [congruence|].
    assert (h' !! la = Some da) as Hla by (rewrite Hframe; eauto).
    split; [done|]. split.
    { unfold getitem. rewrite Hc, Hrest, Hea; [done|].
      apply experiment_not_overridden. }
    split; [by unfold getitem; rewrite Hla, Hea|]. done.
  - destruct (cfg_trpo_runs ht lt et dt xt os dev Hdt Het Hxt)
      as (lc & h' & c & Hrun & Hfresh & Hc & _ & Hrest & Hle & Hframe).
    exists lc, h'. split; [done|]. split; [congruence|].
    assert (h' !! lt = Some dt) as Hlt by (rewrite Hframe; eauto).
    split; [done|]. split.
    { unfold getitem. rewrite Hc, Hrest, Het; [done|].
      apply experiment_not_overridden. }
    split; [by unfold getitem; rewrite Hlt, Het|]. done.
Qed.

(** C10: in each script the configured rollout length is the
    capacity given to the rollout memory (1024 and 1024, 16 and 16),
    and appending one rollout of that many timesteps to the new memory
    fills it exactly: the "full" signal is up, the write position is
    back at 0 and an update consumes capacity times environments
    transitions. *)
Theorem rollouts_equal_memory_size
    (ha ht : heap) (la ea lt et : loc) (da xa dt xt : gmap string value)
    (os dev : value) {T : Type} (num_envs : nat) (rows_a rows_t : list (list T)) :
  default_config_at ha la ea da xa ->
  default_config_at ht lt et dt xt ->
  length rows_a = 1024 -> length rows_t = 16 ->
  (exists lc h',
      cfg_a2c la os dev ha = inr (lc, h') /\
      getitem lc "rollouts" h'
      = inr (VInt (Z.of_nat Pendulum.memory_size), h')) /\
  (exists lc h',
      cfg_trpo lt os dev ht = inr (lc, h') /\
      getitem lc "rollouts" h'
      = inr (VInt (Z.of_nat Cartpole.memory_size), h')) /\
  (let m := foldl Skrl.add_samples
              (Skrl.create Pendulum.memory_size num_envs) rows_a in
   Skrl.filled m = true /\ Skrl.memory_index m = 0 /\
   length (Skrl.sample_all m) = Pendulum.memory_size * num_envs) /\
  (let m := foldl Skrl.add_samples
              (Skrl.create Cartpole.memory_size num_envs) rows_t in
   Skrl.filled m = true /\ Skrl.memory_index m = 0 /\
   length (Skrl.sample_all m) = Cartpole.memory_size * num_envs).
Proof.
  intros (Hda & Hea & Hxa & Hna) (Hdt & Het & Hxt & Hnt) Hra Hrt.
  split; [|split; [|split]].
  - destruct (cfg_a2c_runs ha la ea da xa os dev Hda Hea Hxa)
      as (lc & h' & c & Hrun & _ & Hc & Htop & _).
    exists lc, h'. split; [done|].
    destruct (Htop "rollouts" (EVal (VInt 1024))) as (v & Hv & Hh).
    { unfold a2c_overrides. apply elem_of_cons. by left. }
    simpl in Hh. subst v. unfold getitem. by rewrite Hc, Hv.
  - destruct (cfg_trpo_runs ht lt et dt xt os dev Hdt Het Hxt)
      as (lc & h' & c & Hrun & _ & Hc & Htop & _).
    exists lc, h'. split; [done|].
    destruct (Htop "rollouts" (EVal (VInt 16))) as (v & Hv & Hh).
    { unfold trpo_overrides. apply elem_of_cons. by left. }
    simpl in Hh. subst v. unfold getitem. by rewrite Hc, Hv.
  - intros m.
    destruct (full_after_memory_size Pendulum.memory_size num_envs rows_a)
      as (? & ? & _ & ?); [unfold Pendulum.memory_size; lia | done | done].
  - intros m.
    destruct (full_after_memory_size Cartpole.memory_size num_envs rows_t)
      as (? & ? & _ & ?); [unfold Cartpole.memory_size; lia | done | done].
Qed.

End ConfigRuns.


Lemma default_config_at_example :
  Config.default_config_at Examples.default_heap 1 2
    Examples.default_config Examples.default_experiment.
Proof. repeat split; try reflexivity. discriminate. Qed.

(** Both configuration blocks on the example default configuration. *)
Lemma config_overrides_and_defaults_witness :
  (exists lc h',
      Config.cfg_a2c 1%positive (Py.VObj "env.observation_space")
        (Py.VObj "env.device") Examples.default_heap = inr (lc, h') /\
      Config.configured h' lc 2%positive
        (Config.a2c_overrides (Py.VObj "env.observation_space")
           (Py.VObj "env.device"))
        Config.a2c_experiment_overrides
        Examples.default_config Examples.default_experiment) /\
  (exists lc h',
      Config.cfg_trpo 1%positive (Py.VObj "env.observation_space")
        (Py.VObj "env.device") Examples.default_heap = inr (lc, h') /\
      Config.configured h' lc 2%positive
        (Config.trpo_overrides (Py.VObj "env.observation_space")
           (Py.VObj "env.device"))
        Config.trpo_experiment_overrides
        Examples.default_config Examples.default_experiment).
Proof.
  apply (config_overrides_and_defaults Examples.default_heap
           Examples.default_heap 1 2 1 2);
    apply default_config_at_example.
Defined.

(** The sharing of the nested dictionary on the example default
    configuration. *)
Lemma shallow_copy_shares_experiment_witness :
  (exists lc h',
      Config.cfg_a2c 1%positive (Py.VObj "env.observation_space")
        (Py.VObj "env.device") Examples.default_heap = inr (lc, h') /\
      lc <> 1%positive /\ h' !! 1%positive = Some Examples.default_config /\
      Py.getitem lc "experiment" h' = inr (Py.VRef 2, h') /\
      Py.getitem 1%positive "experiment" h' = inr (Py.VRef 2, h') /\
      h' !! 2%positive
      = Some (<["checkpoint_interval" := Py.VInt 5000]>
                (<["write_interval" := Py.VInt 500]>
                   Examples.default_experiment)) /\
      (forall l, l <> 2%positive -> is_Some (Examples.default_heap !! l) ->
                 h' !! l = Examples.default_heap !! l)) /\
  (exists lc h',
      Config.cfg_trpo 1%positive (Py.VObj "env.observation_space")
        (Py.VObj "env.device") Examples.default_heap = inr (lc, h') /\
      lc <> 1%positive /\ h' !! 1%positive = Some Examples.default_config /\
      Py.getitem lc "experiment" h' = inr (Py.VRef 2, h') /\
      Py.getitem 1%positive "experiment" h' = inr (Py.VRef 2, h') /\
      h' !! 2%positive
      = Some (<["checkpoint_interval" := Py.VInt 125]>
                (<["write_interval" := Py.VInt 16]>
                   Examples.default_experiment)) /\
      (forall l, l <> 2%positive -> is_Some (Examples.default_heap !! l) ->
                 h' !! l = Examples.default_heap !! l)).
Proof.
  apply (shallow_copy_shares_experiment Examples.default_heap
           Examples.default_heap 1 2 1 2);
    apply default_config_at_example.
Defined.

(** Rollout length and memory capacity on the example default
    configuration, with four environments. *)
Lemma rollouts_equal_memory_size_witness :
  (exists lc h',
      Config.cfg_a2c 1%positive (Py.VObj "env.observation_space")
        (Py.VObj "env.device") Examples.default_heap = inr (lc, h') /\
      Py.getitem lc "rollouts" h'
      = inr (Py.VInt (Z.of_nat Pendulum.memory_size), h')) /\
  (exists lc h',
      Config.cfg_trpo 1%positive (Py.VObj "env.observation_space")
        (Py.VObj "env.device") Examples.default_heap = inr (lc, h') /\
      Py.getitem lc "rollouts" h'
      = inr (Py.VInt (Z.of_nat Cartpole.memory_size), h')) /\
  (let m := foldl Skrl.add_samples (Skrl.create Pendulum.memory_size 4)
              (replicate 1024 [true; true; true; true]) in
   Skrl.filled m = true /\ Skrl.memory_index m = 0 /\
   length (Skrl.sample_all m) = Pendulum.memory_size * 4) /\
  (let m := foldl Skrl.add_samples (Skrl.create Cartpole.memory_size 4)
              (replicate 16 [true; true; true; true]) in
   Skrl.filled m = true /\ Skrl.memory_index m = 0 /\
   length (Skrl.sample_all m) = Cartpole.memory_size * 4).
Proof.
  exact (rollouts_equal_memory_size Examples.default_heap
           Examples.default_heap 1 2 1 2
           Examples.default_config Examples.default_experiment
           Examples.default_config Examples.default_experiment
           (Py.VObj "env.observation_space") (Py.VObj "env.device") 4
           (replicate 1024 [true; true; true; true])
           (replicate 16 [true; true; true; true])
           default_config_at_example default_config_at_example
           (length_replicate 1024 _) (length_replicate 16 _)).
Defined.

(** * Further properties of the scripts *)
(** ** More on the masking wrapper *)

Section MaskingMore.
Import Pendulum.
Local Open Scope R_scope.

(** X1: The masked observation does not depend on the angular velocity: two
    observations with the same x and y are masked to the same vector. *)
Theorem observation_hides_velocity (self : NoVelocityWrapper) (x y w w' : R) :
  observation self [x; y; w] = observation self [x; y; w'].
Proof. by rewrite !observation_3. Qed.

Lemma observation_1 self (x : R) : observation self [x] = Some [x; x; 0].
Proof.
  unfold observation, Numpy.multiply. simpl.
  f_equal. f_equal; [lra|]. f_equal; [lra|]. f_equal. lra.
Qed.

(** X2: The product with the three-entry mask returns exactly on arrays of
    three entries and, by broadcasting, of one entry: a one-entry
    observation [x] is stretched to [x, x, 0]; every other length
    raises. *)
Theorem observation_shapes (self : NoVelocityWrapper) (obs : list R) :
  (is_Some (observation self obs) <->
     length obs = 3%nat \/ length obs = 1%nat) /\
  (forall r, observation self obs = Some r -> length r = 3%nat) /\
  (forall x, obs = [x] -> observation self obs = Some [x; x; 0]).
Proof.
  assert (Hcases : (length obs = 3%nat /\ exists r, observation self obs = Some r /\ length r = 3%nat)
                   \/ (length obs = 1%nat /\ exists r, observation self obs = Some r /\ length r = 3%nat)
                   \/ (length obs <> 3%nat /\ length obs <> 1%nat /\ observation self obs = None)).
  { unfold observation, Numpy.multiply.
    change (length [1; 1; 0]) with 3%nat.
    destruct (decide (length obs = 3%nat)) as [H3|H3].
    - left. split; [done|]. eexists. split; [done|].
      rewrite length_zip_with. simpl. lia.
    - destruct (decide (length obs = 1%nat)) as [H1|H1].
      + right; left. split; [done|]. eexists. split; [done|].
        rewrite length_zip_with, length_replicate. simpl. lia.
      + right; right. by rewrite decide_False by done. }
  split; [|split].
  - destruct Hcases as [(? & r & -> & _)|[(? & r & -> & _)|(? & ? & ->)]];
      split; try (intros; by eauto); try (by intros [? [=]]).
    intros [?|?]; done.
  - intros r Hr.
    destruct Hcases as [(? & r' & Hr' & ?)|[(? & r' & Hr' & ?)|(? & ? & Hn)]];
      congruence.
  - intros x ->. apply observation_1.
Qed.

(** X3: Masking never enlarges an entry: every entry of the result is at
    most the corresponding entry of the observation in absolute value,
    so a masked observation stays inside any box around zero that held
    the observation. *)
Theorem observation_not_larger (self : NoVelocityWrapper) (obs : list R) :
  length obs = 3%nat ->
  exists r, observation self obs = Some r /\
            Forall2 (fun o i => Rabs o <= Rabs i) r obs.
Proof.
  intros (x & y & w & ->)%length_3_inv.
  exists [x; y; 0]. split; [apply observation_3|].
  apply Forall2_cons_2; [lra|]. apply Forall2_cons_2; [lra|].
  apply Forall2_cons_2; [|apply Forall2_nil_2].
  rewrite Rabs_R0. apply Rabs_pos.
Qed.

End MaskingMore.

Lemma observation_not_larger_witness :
  exists r, Pendulum.observation (Pendulum.mkNoVelocityWrapper "Pendulum-v1")
              [1%R; 0%R; (-8)%R] = Some r /\
            Forall2 (fun o i => (Rabs o <= Rabs i)%R) r [1%R; 0%R; (-8)%R].
Proof.
  apply (observation_not_larger _ [1%R; 0%R; (-8)%R]). reflexivity.
Defined.

(** ** Shapes and failures of the four models *)

Section ModelShapes.
Import Torch Shapes.
Local Open Scope R_scope.

(** A stack Linear, activation, Linear, activation, Linear whose widths
    chain accepts exactly the rows of its input width and returns rows
    of its output width. *)
Lemma stack_forward (l0 l2 l4 : Linear) (act : list R -> list R) (x : list R) :
  (forall h, length (act h) = length h) ->
  Linear_shaped l0 -> Linear_shaped l2 -> Linear_shaped l4 ->
  out_features l0 = in_features l2 -> out_features l2 = in_features l4 ->
  (is_Some (h0 ← Linear_forward l0 x;
            h2 ← Linear_forward l2 (act h0);
            Linear_forward l4 (act h2))
   <-> length x = in_features l0) /\
  (forall y, (h0 ← Linear_forward l0 x;
              h2 ← Linear_forward l2 (act h0);
              Linear_forward l4 (act h2)) = Some y ->
             length y = out_features l4).
Proof.
  intros Hact S0 S2 S4 E02 E24.
  destruct (decide (length x = in_features l0)) as [Hx|Hx].
  - destruct (Linear_forward_shaped l0 x S0 Hx) as (h0 & -> & L0).
    destruct (Linear_forward_shaped l2 (act h0) S2) as (h2 & E2 & L2);
      [rewrite Hact; lia|].
    destruct (Linear_forward_shaped l4 (act h2) S4) as (y & E4 & L4);
      [rewrite Hact; lia|].
    simpl. rewrite E2. simpl. rewrite E4. split.
    + split; [done|by eexists].
    + by intros y' [= <-].
  - assert (Linear_forward l0 x = None) as ->
      by (unfold Linear_forward; by rewrite decide_False).
    simpl. split; [|done]. split; [by intros [? [=]]|done].
Qed.

(** A batch is accepted exactly when every row is, and the result has
    one row per state. *)
Lemma batch_forward (f : list R -> option (list R)) (n m : nat)
    (states : list (list R)) :
  (forall x, is_Some (f x) <-> length x = n) ->
  (forall x y, f x = Some y -> length y = m) ->
  (is_Some (mapM f states) <-> Forall (fun s => length s = n) states) /\
  (forall out, mapM f states = Some out ->
               length out = length states /\
               Forall (fun r => length r = m) out).
Proof.
  intros Hsome Hlen. split.
  - rewrite mapM_is_Some. apply Forall_iff. intros x. apply Hsome.
  - intros out Hout. split; [symmetry; by eapply length_mapM|].
    apply mapM_Some_1 in Hout.
    induction Hout as [|x y l k Hxy _ IH]; constructor; eauto.
Qed.

Lemma Pendulum_net_row_shape p n_obs n_act x :
  Pendulum.Policy_shaped p n_obs n_act ->
  (is_Some (Pendulum.net_row p x) <-> length x = n_obs) /\
  (forall y, Pendulum.net_row p x = Some y -> length y = n_act).
Proof.
  intros (S0 & S2 & S4 & I0 & O0 & I2 & O2 & I4 & O4).
  rewrite <- I0, <- O4. apply stack_forward; try done; try congruence.
  apply length_ReLU.
Qed.

Lemma Pendulum_Value_net_row_shape v n_obs x :
  Pendulum_Value_shaped v n_obs ->
  (is_Some (Pendulum.Value_net_row v x) <-> length x = n_obs) /\
  (forall y, Pendulum.Value_net_row v x = Some y -> length y = 1%nat).
Proof.
  intros (S0 & S2 & S4 & I0 & O0 & I2 & O2 & I4 & O4).
  rewrite <- I0, <- O4. apply stack_forward; try done; try congruence.
  apply length_ReLU.
Qed.

Lemma Cartpole_net_row_shape q n_obs n_act x :
  Cartpole.Policy_shaped q n_obs n_act ->
  (is_Some (Cartpole.net_row q x) <-> length x = n_obs) /\
  (forall y, Cartpole.net_row q x = Some y -> length y = n_act).
Proof.
  intros (S0 & S2 & S4 & I0 & O0 & I2 & O2 & I4 & O4).
  rewrite <- I0, <- O4. apply stack_forward; try done; try congruence.
  apply length_ELU.
Qed.

Lemma Cartpole_Value_net_row_shape v n_obs x :
  Cartpole_Value_shaped v n_obs ->
  (is_Some (Cartpole.Value_net_row v x) <-> length x = n_obs) /\
  (forall y, Cartpole.Value_net_row v x = Some y -> length y = 1%nat).
Proof.
  intros (S0 & S2 & S4 & I0 & O0 & I2 & O2 & I4 & O4).
  rewrite <- I0, <- O4. apply stack_forward; try done; try congruence.
  apply length_ELU.
Qed.

(** X4: [Policy.compute] of the A2C script raises exactly when the inputs
    have no ["states"] entry or some state has the wrong width. *)
Theorem pendulum_compute_fails_iff (p : Pendulum.Policy) (n_obs n_act : nat)
    (inputs : gmap string (list (list R))) (role : string) :
  Pendulum.Policy_shaped p n_obs n_act ->
  (Pendulum.compute p inputs role = None <->
   inputs !! "states" = None \/
   exists states, inputs !! "states" = Some states /\
                  Exists (fun s => length s <> n_obs) states).
Proof.
  intros Hp. unfold Pendulum.compute.
  destruct (inputs !! "states") as [states|] eqn:Hin; simpl.
  - destruct (batch_forward (Pendulum.net_row p) n_obs n_act states)
      as [Hsome _].
    { intros x. exact (proj1 (Pendulum_net_row_shape p n_obs n_act x Hp)). }
    { intros x. exact (proj2 (Pendulum_net_row_shape p n_obs n_act x Hp)). }
    unfold Pendulum.net.
    destruct (mapM (Pendulum.net_row p) states) as [out|] eqn:Hout; simpl.
    + split; [done|]. intros [[=]|(st & [= <-] & Hex)].
      apply Exists_not_Forall in Hex. destruct Hex. apply Hsome. by eexists.
    + split; [|done]. intros _. right. exists states. split; [done|].
      apply not_Forall_Exists; [apply _|].
      intros HF. apply Hsome in HF. by destruct HF as [? [=]].
  - split; [by left|done].
Qed.

(** X5: When [Policy.compute] of the A2C script returns, it returns one
    action row per state, every row of [num_actions] entries, next to
    the policy's [log_std_parameter] and an empty dictionary. *)
Theorem pendulum_compute_shape (p : Pendulum.Policy) (n_obs n_act : nat)
    (inputs : gmap string (list (list R))) (role : string)
    (out : list (list R)) (log_std : list R)
    (extra : gmap string (list (list R))) :
  Pendulum.Policy_shaped p n_obs n_act ->
  Pendulum.compute p inputs role = Some (out, log_std, extra) ->
  exists states,
    inputs !! "states" = Some states /\ length out = length states /\
    Forall (fun r => length r = n_act) out /\
    log_std = Pendulum.log_std_parameter p /\ extra = ∅.
Proof.
  intros Hp. unfold Pendulum.compute.
  destruct (inputs !! "states") as [states|] eqn:Hin; [|done]. simpl.
  unfold Pendulum.net.
  destruct (mapM (Pendulum.net_row p) states) as [raw|] eqn:Hraw; [|done].
  simpl. intros [= <- <- <-]. exists states. split; [done|].
  destruct (batch_forward (Pendulum.net_row p) n_obs n_act states)
    as [_ Hshape].
  { intros x. exact (proj1 (Pendulum_net_row_shape p n_obs n_act x Hp)). }
  { intros x. exact (proj2 (Pendulum_net_row_shape p n_obs n_act x Hp)). }
  destruct (Hshape raw Hraw) as [Hl HF].
  unfold Pendulum.scaled_tanh. rewrite length_map. split; [done|].
  split; [|done].
  apply Forall_fmap. eapply Forall_impl; [exact HF|].
  intros r Hr. simpl. by rewrite length_map.
Qed.

(** X7: [Value.compute] of the A2C script returns one value per state on
    every batch of states of the environment's width. *)
Theorem pendulum_value_compute_shape (v : Pendulum.Value) (n_obs : nat)
    (inputs : gmap string (list (list R))) (role : string)
    (states : list (list R)) :
  Pendulum_Value_shaped v n_obs ->
  inputs !! "states" = Some states ->
  (is_Some (Pendulum.Value_compute v inputs role) <->
   Forall (fun s => length s = n_obs) states) /\
  (forall out extra,
      Pendulum.Value_compute v inputs role = Some (out, extra) ->
      length out = length states /\
      Forall (fun r => length r = 1%nat) out /\ extra = ∅).
Proof.
  intros Hv Hin. unfold Pendulum.Value_compute. rewrite Hin. simpl.
  destruct (batch_forward (Pendulum.Value_net_row v) n_obs 1 states)
    as [Hsome Hshape].
  { intros x. exact (proj1 (Pendulum_Value_net_row_shape v n_obs x Hv)). }
  { intros x. exact (proj2 (Pendulum_Value_net_row_shape v n_obs x Hv)). }
  destruct (mapM (Pendulum.Value_net_row v) states) as [raw|] eqn:Hraw; simpl.
  - split.
    + split; [intros _; apply Hsome; by eexists|by eexists].
    + intros out extra [= <- <-]. destruct (Hshape raw eq_refl). done.
  - split; [|done]. split; [by intros [? [=]]|].
    intros HF. apply Hsome in HF. by destruct HF as [? [=]].
Qed.

(** X8: [Policy.compute] of the TRPO script returns exactly on the batches
    whose states all have the environment's width, with one row of
    [num_actions] entries per state and the policy's
    [log_std_parameter]; [taken_actions] plays no part. *)
Theorem cartpole_compute_shape (q : Cartpole.Policy) (n_obs n_act : nat)
    (states taken_actions : list (list R)) :
  Cartpole.Policy_shaped q n_obs n_act ->
  (is_Some (Cartpole.compute q states taken_actions) <->
   Forall (fun s => length s = n_obs) states) /\
  (forall out log_std,
      Cartpole.compute q states taken_actions = Some (out, log_std) ->
      length out = length states /\
      Forall (fun r => length r = n_act) out /\
      log_std = Cartpole.log_std_parameter q).
Proof.
  intros Hq. unfold Cartpole.compute, Cartpole.net.
  destruct (batch_forward (Cartpole.net_row q) n_obs n_act states)
    as [Hsome Hshape].
  { intros x. exact (proj1 (Cartpole_net_row_shape q n_obs n_act x Hq)). }
  { intros x. exact (proj2 (Cartpole_net_row_shape q n_obs n_act x Hq)). }
  destruct (mapM (Cartpole.net_row q) states) as [raw|] eqn:Hraw; simpl.
  - split.
    + split; [intros _; apply Hsome; by eexists|by eexists].
    + intros out ls [= <- <-]. destruct (Hshape raw eq_refl). done.
  - split; [|done]. split; [by intros [? [=]]|].
    intros HF. apply Hsome in HF. by destruct HF as [? [=]].
Qed.

(** X9: [Value.compute] of the TRPO script returns exactly on the batches
    whose states all have the environment's width, with one value per
    state. *)
Theorem cartpole_value_compute_shape (v : Cartpole.Value) (n_obs : nat)
    (states taken_actions : list (list R)) :
  Cartpole_Value_shaped v n_obs ->
  (is_Some (Cartpole.Value_compute v states taken_actions) <->
   Forall (fun s => length s = n_obs) states) /\
  (forall out,
      Cartpole.Value_compute v states taken_actions = Some out ->
      length out = length states /\
      Forall (fun r => length r = 1%nat) out).
Proof.
  intros Hv. unfold Cartpole.Value_compute.
  apply (batch_forward (Cartpole.Value_net_row v) n_obs 1 states).
  - intros x. exact (proj1 (Cartpole_Value_net_row_shape v n_obs x Hv)).
  - intros x. exact (proj2 (Cartpole_Value_net_row_shape v n_obs x Hv)).
Qed.

End ModelShapes.

(** ** The constructors *)

Section Constructors.
Import Torch Shapes.
Local Open Scope R_scope.

Lemma mkLinear_shaped (n m : nat) (w : list (list R)) (b : list R) :
  matrix_shaped w m n -> length b = m -> Linear_shaped (mkLinear n m w b).
Proof. intros [Hw Hr] Hb. by split; [|split]. Qed.

(** X10: A policy built by [Policy.__init__] of the A2C script from layers
    of the sizes the constructor asks for accepts every batch of states
    of width [num_observations]; the action rows and the log standard
    deviation it returns both have [num_actions] entries, and the log
    standard deviations are zero until something changes them. *)
Theorem pendulum_policy_new_compute (num_observations num_actions : nat)
    (w0 : list (list R)) (b0 : list R) (w2 : list (list R)) (b2 : list R)
    (w4 : list (list R)) (b4 : list R)
    (inputs : gmap string (list (list R))) (role : string)
    (states : list (list R)) :
  matrix_shaped w0 64 num_observations -> length b0 = 64%nat ->
  matrix_shaped w2 64 64 -> length b2 = 64%nat ->
  matrix_shaped w4 num_actions 64 -> length b4 = num_actions ->
  inputs !! "states" = Some states ->
  Forall (fun s => length s = num_observations) states ->
  exists out,
    Pendulum.compute
      (Pendulum.Policy_new num_observations num_actions w0 b0 w2 b2 w4 b4)
      inputs role
    = Some (out, replicate num_actions 0, ∅) /\
    length out = length states /\
    Forall (fun r => length r = length (replicate num_actions 0)) out.
Proof.
  intros H0 Hb0 H2 Hb2 H4 Hb4 Hin Hst.
  set (p := Pendulum.Policy_new _ _ _ _ _ _ _ _).
  assert (Hp : Pendulum.Policy_shaped p num_observations num_actions).
  { unfold Pendulum.Policy_shaped. simpl.
    repeat split; try done; by apply mkLinear_shaped. }
  destruct (batch_forward (Pendulum.net_row p) num_observations num_actions
              states) as [Hsome Hshape].
  { intros x. exact (proj1 (Pendulum_net_row_shape p _ _ x Hp)). }
  { intros x. exact (proj2 (Pendulum_net_row_shape p _ _ x Hp)). }
  destruct (proj2 Hsome Hst) as [raw Hraw].
  destruct (Hshape raw Hraw) as [Hl HF].
  exists (Pendulum.scaled_tanh raw). split; [|split].
  - unfold Pendulum.compute. rewrite Hin. simpl.
    unfold Pendulum.net. by rewrite Hraw.
  - unfold Pendulum.scaled_tanh. by rewrite length_map.
  - unfold Pendulum.scaled_tanh. apply Forall_fmap.
    eapply Forall_impl; [exact HF|]. intros r Hr. simpl.
    by rewrite length_map, length_replicate.
Qed.

(** X11: A policy built by [Policy.__init__] of the TRPO script from
    layers of the sizes the constructor asks for (hidden width 32)
    accepts every batch of states of width [num_observations]; the
    action rows and the log standard deviation it returns both have
    [num_actions] entries, and the log standard deviations are zero as
    constructed. *)
Theorem cartpole_policy_new_compute (num_observations num_actions : nat)
    (w0 : list (list R)) (b0 : list R) (w2 : list (list R)) (b2 : list R)
    (w4 : list (list R)) (b4 : list R)
    (states taken_actions : list (list R)) :
  matrix_shaped w0 32 num_observations -> length b0 = 32%nat ->
  matrix_shaped w2 32 32 -> length b2 = 32%nat ->
  matrix_shaped w4 num_actions 32 -> length b4 = num_actions ->
  Forall (fun s => length s = num_observations) states ->
  exists out,
    Cartpole.compute
      (Cartpole.Policy_new num_observations num_actions w0 b0 w2 b2 w4 b4)
      states taken_actions
    = Some (out, replicate num_actions 0) /\
    length out = length states /\
    Forall (fun r => length r = length (replicate num_actions 0)) out.
Proof.
  intros H0 Hb0 H2 Hb2 H4 Hb4 Hst.
  set (q := Cartpole.Policy_new _ _ _ _ _ _ _ _).
  assert (Hq : Cartpole.Policy_shaped q num_observations num_actions).
  { unfold Cartpole.Policy_shaped. simpl.
    repeat split; try done; by apply mkLinear_shaped. }
  destruct (batch_forward (Cartpole.net_row q) num_observations num_actions
              states) as [Hsome Hshape].
  { intros x. exact (proj1 (Cartpole_net_row_shape q _ _ x Hq)). }
  { intros x. exact (proj2 (Cartpole_net_row_shape q _ _ x Hq)). }
  destruct (proj2 Hsome Hst) as [raw Hraw].
  destruct (Hshape raw Hraw) as [Hl HF].
  exists raw. split; [|split].
  - unfold Cartpole.compute, Cartpole.net. by rewrite Hraw.
  - done.
  - eapply Forall_impl; [exact HF|]. intros r Hr. simpl.
    by rewrite length_replicate.
Qed.

End Constructors.

(** ** The example models *)

Lemma matrix_shaped_replicate (rows cols : nat) (v : R) :
  Shapes.matrix_shaped (replicate rows (replicate cols v)) rows cols.
Proof.
  split; [apply length_replicate|].
  apply Forall_replicate, length_replicate.
Qed.

Lemma pendulum_policy_example_shaped :
  Pendulum.Policy_shaped Examples.pendulum_policy 3 1.
Proof.
  split; [|split; [|split; [|repeat split; reflexivity]]];
    (apply mkLinear_shaped;
     [ first [ apply matrix_shaped_replicate
             | apply (matrix_shaped_replicate 1 64) ]
     | first [ apply length_replicate | reflexivity ] ]).
Qed.

Lemma cartpole_policy_example_shaped :
  Cartpole.Policy_shaped Examples.cartpole_policy 4 1.
Proof.
  split; [|split; [|split; [|repeat split; reflexivity]]];
    (apply mkLinear_shaped;
     [ first [ apply matrix_shaped_replicate
             | apply (matrix_shaped_replicate 1 32) ]
     | first [ apply length_replicate | reflexivity ] ]).
Qed.

Lemma cartpole_value_example_shaped :
  Shapes.Cartpole_Value_shaped Examples.cartpole_value 4.
Proof.
  split; [|split; [|split; [|repeat split; reflexivity]]];
    (apply mkLinear_shaped;
     [ first [ apply matrix_shaped_replicate
             | apply (matrix_shaped_replicate 1 32) ]
     | first [ apply length_replicate | reflexivity ] ]).
Qed.

Lemma pendulum_value_example_shaped :
  Shapes.Pendulum_Value_shaped MoreExamples.pendulum_value 3.
Proof.
  split; [|split; [|split; [|repeat split; reflexivity]]];
    (apply mkLinear_shaped;
     [ first [ apply matrix_shaped_replicate
             | apply (matrix_shaped_replicate 1 64) ]
     | first [ apply length_replicate | reflexivity ] ]).
Qed.

Lemma pendulum_policy_example_compute :
  exists y,
    Pendulum.net_row Examples.pendulum_policy [1%R; 0%R; 0%R] = Some y /\
    Pendulum.compute Examples.pendulum_policy Examples.pendulum_inputs "policy"
    = Some ([map (fun v => (2 * tanh v)%R) y],
            Pendulum.log_std_parameter Examples.pendulum_policy, ∅).
Proof.
  destruct (Pendulum_net_row_total Examples.pendulum_policy 3 1
              [1%R; 0%R; 0%R] pendulum_policy_example_shaped eq_refl)
    as (y & Hy & _).
  exists y. split; [done|].
  assert (Pendulum.net Examples.pendulum_policy [[1%R; 0%R; 0%R]] = Some [y])
    as Hnet by (apply mapM_Some_2; by repeat constructor).
  unfold Pendulum.compute, Examples.pendulum_inputs.
  rewrite lookup_singleton_eq. cbn -[Pendulum.net]. by rewrite Hnet.
Qed.

(** The failure condition on the example policy and inputs. *)
Lemma pendulum_compute_fails_iff_witness :
  Pendulum.compute Examples.pendulum_policy Examples.pendulum_inputs "policy"
  = None <->
  Examples.pendulum_inputs !! "states" = None \/
  exists states, Examples.pendulum_inputs !! "states" = Some states /\
                 Exists (fun s => length s <> 3) states.
Proof.
  apply (pendulum_compute_fails_iff Examples.pendulum_policy 3 1).
  apply pendulum_policy_example_shaped.
Defined.

(** The output shape on the example policy and inputs. *)
Lemma pendulum_compute_shape_witness :
  exists y states,
    Examples.pendulum_inputs !! "states" = Some states /\
    length [map (fun v => (2 * tanh v)%R) y] = length states /\
    Forall (fun r => length r = 1) [map (fun v => (2 * tanh v)%R) y] /\
    Pendulum.log_std_parameter Examples.pendulum_policy
    = Pendulum.log_std_parameter Examples.pendulum_policy /\
    (∅ : gmap string (list (list R))) = ∅.
Proof.
  destruct pendulum_policy_example_compute as (y & _ & Hc). exists y.
  apply (pendulum_compute_shape Examples.pendulum_policy 3 1
           Examples.pendulum_inputs "policy" _ _ _
           pendulum_policy_example_shaped Hc).
Defined.

(** The value model of the A2C script on the example inputs. *)
Lemma pendulum_value_compute_shape_witness :
  (is_Some (Pendulum.Value_compute MoreExamples.pendulum_value
              Examples.pendulum_inputs "value") <->
   Forall (fun s => length s = 3) [[1%R; 0%R; 0%R]]) /\
  (forall out extra,
      Pendulum.Value_compute MoreExamples.pendulum_value
        Examples.pendulum_inputs "value" = Some (out, extra) ->
      length out = length [[1%R; 0%R; 0%R]] /\
      Forall (fun r => length r = 1) out /\ extra = ∅).
Proof.
  apply (pendulum_value_compute_shape MoreExamples.pendulum_value 3
           Examples.pendulum_inputs "value" [[1%R; 0%R; 0%R]]
           pendulum_value_example_shaped (lookup_singleton_eq _ _)).
Defined.

(** The policy of the TRPO script on a batch of two states. *)
Lemma cartpole_compute_shape_witness :
  (is_Some (Cartpole.compute Examples.cartpole_policy
              [[0%R; 0%R; 0%R; 0%R]; [1%R; 0%R; 0%R; 0%R]] []) <->
   Forall (fun s => length s = 4)
          [[0%R; 0%R; 0%R; 0%R]; [1%R; 0%R; 0%R; 0%R]]) /\
  (forall out log_std,
      Cartpole.compute Examples.cartpole_policy
        [[0%R; 0%R; 0%R; 0%R]; [1%R; 0%R; 0%R; 0%R]] [] = Some (out, log_std) ->
      length out = length [[0%R; 0%R; 0%R; 0%R]; [1%R; 0%R; 0%R; 0%R]] /\
      Forall (fun r => length r = 1) out /\
      log_std = Cartpole.log_std_parameter Examples.cartpole_policy).
Proof.
  apply (cartpole_compute_shape Examples.cartpole_policy 4 1 _ []
           cartpole_policy_example_shaped).
Defined.

(** The value model of the TRPO script on a batch of two states. *)
Lemma cartpole_value_compute_shape_witness :
  (is_Some (Cartpole.Value_compute Examples.cartpole_value
              [[0%R; 0%R; 0%R; 0%R]; [1%R; 0%R; 0%R; 0%R]] []) <->
   Forall (fun s => length s = 4)
          [[0%R; 0%R; 0%R; 0%R]; [1%R; 0%R; 0%R; 0%R]]) /\
  (forall out,
      Cartpole.Value_compute Examples.cartpole_value
        [[0%R; 0%R; 0%R; 0%R]; [1%R; 0%R; 0%R; 0%R]] [] = Some out ->
      length out = length [[0%R; 0%R; 0%R; 0%R]; [1%R; 0%R; 0%R; 0%R]] /\
      Forall (fun r => length r = 1) out).
Proof.
  apply (cartpole_value_compute_shape Examples.cartpole_value 4 _ []
           cartpole_value_example_shaped).
Defined.

(** The constructor of the A2C policy with all-zero layers. *)
Lemma pendulum_policy_new_compute_witness :
  exists out,
    Pendulum.compute Examples.pendulum_policy Examples.pendulum_inputs "policy"
    = Some (out, replicate 1 0%R, ∅) /\
    length out = length [[1%R; 0%R; 0%R]] /\
    Forall (fun r => length r = length (replicate 1 0%R)) out.
Proof.
  apply (pendulum_policy_new_compute 3 1
           (replicate 64 (replicate 3 0%R)) (replicate 64 0%R)
           (replicate 64 (replicate 64 0%R)) (replicate 64 0%R)
           [replicate 64 0%R] [0%R]
           Examples.pendulum_inputs "policy" [[1%R; 0%R; 0%R]]
           (matrix_shaped_replicate 64 3 0%R) (length_replicate 64 0%R)
           (matrix_shaped_replicate 64 64 0%R) (length_replicate 64 0%R)
           (matrix_shaped_replicate 1 64 0%R) eq_refl
           (lookup_singleton_eq _ _)).
  by repeat constructor.
Defined.

(** The constructor of the TRPO policy with all-zero layers. *)
Lemma cartpole_policy_new_compute_witness :
  exists out,
    Cartpole.compute Examples.cartpole_policy [[1%R; 0%R; 0%R; 0%R]] []
    = Some (out, replicate 1 0%R) /\
    length out = length [[1%R; 0%R; 0%R; 0%R]] /\
    Forall (fun r => length r = length (replicate 1 0%R)) out.
Proof.
  apply (cartpole_policy_new_compute 4 1
           (replicate 32 (replicate 4 0%R)) (replicate 32 0%R)
           (replicate 32 (replicate 32 0%R)) (replicate 32 0%R)
           [replicate 32 0%R] [0%R] [[1%R; 0%R; 0%R; 0%R]] []
           (matrix_shaped_replicate 32 4 0%R) (length_replicate 32 0%R)
           (matrix_shaped_replicate 32 32 0%R) (length_replicate 32 0%R)
           (matrix_shaped_replicate 1 32 0%R) eq_refl).
  by repeat constructor.
Defined.

(** ** More on the environment loader *)

Section LoaderMore.
Import Cartpole.

Lemma string_length_append (a b : string) :
  String.length (a ++ b) = String.length a + String.length b.
Proof.
  induction a as [|c a IH]; [done|].
  change (S (String.length (a ++ b)) = S (String.length a) + String.length b).
  by rewrite IH.
Qed.

Lemma string_append_inv_head (p a b : string) : p ++ a = p ++ b -> a = b.
Proof.
  induction p as [|c p IH]; [done|].
  change (String c (p ++ a) = String c (p ++ b) -> a = b).
  intros [= H]. auto.
Qed.

Lemma string_append_inv_tail (a b t : string) : a ++ t = b ++ t -> a = b.
Proof.
  revert b. induction a as [|c a IH]; intros [|c' b] H.
  - done.
  - apply (f_equal String.length) in H.
    change (String.length t = S (String.length (b ++ t))) in H.
    rewrite (string_length_append b t) in H. lia.
  - apply (f_equal String.length) in H.
    change (S (String.length (a ++ t)) = String.length t) in H.
    rewrite (string_length_append a t) in H. lia.
  - change (String c (a ++ t) = String c' (b ++ t)) in H.
    injection H as -> H. f_equal. by apply IH.
Qed.

(** X13: The printed line determines the text of the captured error: two
    errors with different texts are never reported by the same line. *)
Theorem failure_message_determines_error (e1 e2 : PyException) :
  failure_message e1 = failure_message e2 -> exc_str e1 = exc_str e2.
Proof.
  unfold failure_message. intros H.
  apply string_append_inv_head in H. by apply string_append_inv_tail in H.
Qed.

Context {Env World : Type}.
Variable load4 load2 : string -> World -> outcome Env * World.

(** X12: What leaves the loader block.  It binds an environment exactly
    when the first loader returns one, or the first loader raises an
    [Exception] and the second returns one; an exception leaves the
    block exactly when the first loader raises one that is not an
    [Exception], or the first raises an [Exception] and the second
    raises: then it is the second loader's exception that leaves, the
    first being only printed. *)
Theorem load_env_outcome (w w1 w2 : World) (r4 r2 : outcome Env) :
  load4 "Cartpole" w = (r4, w1) ->
  load2 "Cartpole" w1 = (r2, w2) ->
  let r := (load_env load4 load2 w).1.1 in
  (forall env,
      r = Returned env <->
      r4 = Returned env \/
      exists e, r4 = Raised e /\ exc_is_Exception e = true /\
                r2 = Returned env) /\
  (forall e,
      r = Raised e <->
      (r4 = Raised e /\ exc_is_Exception e = false) \/
      exists e4, r4 = Raised e4 /\ exc_is_Exception e4 = true /\
                 r2 = Raised e).
Proof.
  intros H4 H2. unfold load_env. rewrite H4.
  destruct r4 as [env4|e4]; simpl.
  - split; [intros env|intros e]; split.
    + intros [= <-]. by left.
    + by intros [[= <-]|(e & [=] & _)].
    + intros [=].
    + by intros [[[=] _]|(e' & [=] & _)].
  - destruct (exc_is_Exception e4) eqn:Hexc.
    + rewrite H2. simpl. split; [intros env|intros e]; split.
      * intros ->. right. by exists e4.
      * by intros [[=]|(e' & [= <-] & _ & ->)].
      * intros ->. right. by exists e4.
      * intros [[[= <-] He]|(e' & [= <-] & _ & ->)]; [congruence|done].
    + simpl. split; [intros env|intros e]; split.
      * intros [=].
      * intros [[=]|(e' & [= <-] & He & _)]. congruence.
      * intros [= <-]. by left.
      * intros [[[= <-] _]|(e' & [= <-] & He & _)]; [done|congruence].
Qed.

End LoaderMore.

(** Two errors on the printed line. *)
Lemma failure_message_determines_error_witness :
  Cartpole.exc_str (Cartpole.mkPyException "no module" true)
  = Cartpole.exc_str (Cartpole.mkPyException "no module" false).
Proof.
  apply (failure_message_determines_error
           (Cartpole.mkPyException "no module" true)
           (Cartpole.mkPyException "no module" false)).
  reflexivity.
Defined.

(** The block's result when preview 4 raises and preview 2 loads. *)
Lemma load_env_outcome_witness :
  let r := (Cartpole.load_env Examples.failing_preview4
              Examples.working_preview2 0).1.1 in
  (forall env,
      r = Cartpole.Returned env <->
      Cartpole.Raised
        (Cartpole.mkPyException "No module named isaacgymenvs" true)
      = Cartpole.Returned env \/
      exists e,
        Cartpole.Raised
          (Cartpole.mkPyException "No module named isaacgymenvs" true)
        = Cartpole.Raised (A:=string) e /\
        Cartpole.exc_is_Exception e = true /\
        Cartpole.Returned "Cartpole" = Cartpole.Returned env) /\
  (forall e,
      r = Cartpole.Raised e <->
      (Cartpole.Raised
         (Cartpole.mkPyException "No module named isaacgymenvs" true)
       = Cartpole.Raised (A:=string) e /\
       Cartpole.exc_is_Exception e = false) \/
      exists e4,
        Cartpole.Raised
          (Cartpole.mkPyException "No module named isaacgymenvs" true)
        = Cartpole.Raised (A:=string) e4 /\
        Cartpole.exc_is_Exception e4 = true /\
        Cartpole.Returned "Cartpole" = Cartpole.Raised e).
Proof.
  apply (load_env_outcome Examples.failing_preview4 Examples.working_preview2
           0 1 2 _ _ eq_refl eq_refl).
Defined.

(** ** The configuration blocks up to the nested assignments *)

Section OutcomeRules.
Import Py Outcome.

Lemma wp_bind {A B} (m : M A) (k : A -> M B) h Phi :
  wp m h (fun r => match r with
                   | inl e => Phi (inl e)
                   | inr (a, h') => wp (k a) h' Phi
                   end) ->
  wp (m ≫= k) h Phi.
Proof.
  unfold wp, mbind, M_bind, bind. by destruct (m h) as [e|[a h']].
Qed.

Lemma wp_new_dict d h (Phi : error + (loc * heap) -> Prop) :
  (forall l, h !! l = None -> Phi (inr (l, <[l := d]> h))) ->
  wp (new_dict d) h Phi.
Proof. intros H. apply H, not_elem_of_dom, is_fresh. Qed.

Lemma wp_dict_copy l d h (Phi : error + (loc * heap) -> Prop) :
  h !! l = Some d ->
  (forall l', h !! l' = None -> Phi (inr (l', <[l' := d]> h))) ->
  wp (dict_copy l) h Phi.
Proof.
  intros Hl H. unfold wp, dict_copy. rewrite Hl. by apply wp_new_dict.
Qed.

Lemma wp_setitem l k v d h (Phi : error + (unit * heap) -> Prop) :
  h !! l = Some d ->
  Phi (inr (tt, <[l := <[k := v]> d]> h)) ->
  wp (setitem l k v) h Phi.
Proof. intros Hl H. unfold wp, setitem. by rewrite Hl. Qed.

End OutcomeRules.

Ltac wp_step :=
  apply wp_bind;
  first
    [ eapply wp_setitem; [heap_lookup; fail | rewrite ?insert_insert_eq ]
    | apply wp_new_dict; let l := fresh "kw" in
                         let H := fresh "Hkw" in
                         intros l H; fresh_facts H ];
  cbv beta iota.

Section ConfigPrefix.
Import Py Config Outcome.

(** Lines 82-98 of the A2C script always run through: whatever the
    default holds, they leave a new configuration object and three new
    keyword dictionaries, and touch nothing else. *)
Lemma cfg_a2c_prefix (h : heap) ld d os dev :
  h !! ld = Some d ->
  exists lc kw1 kw2 kw3 h1,
    cfg_a2c ld os dev h = a2c_experiment_part lc h1 /\
    h !! lc = None /\ h !! kw1 = None /\ h !! kw2 = None /\ h !! kw3 = None /\
    NoDup [lc; kw1; kw2; kw3] /\
    h1 !! lc = Some (a2c_top d kw1 kw2 kw3) /\
    h1 !! kw1 = Some {[ "kl_threshold" := VFloat 8 (-3);
                        "min_lr" := VFloat 5 (-4) ]} /\
    h1 !! kw2 = Some {[ "size" := os; "device" := dev ]} /\
    h1 !! kw3 = Some {[ "size" := VInt 1; "device" := dev ]} /\
    (forall l, is_Some (h !! l) -> h1 !! l = h !! l).
Proof.
  intros Hd.
  cut (wp (cfg_a2c ld os dev) h (fun r =>
    exists lc kw1 kw2 kw3 h1,
      r = a2c_experiment_part lc h1 /\
      h !! lc = None /\ h !! kw1 = None /\ h !! kw2 = None /\
      h !! kw3 = None /\ NoDup [lc; kw1; kw2; kw3] /\
      h1 !! lc = Some (a2c_top d kw1 kw2 kw3) /\
      h1 !! kw1 = Some {[ "kl_threshold" := VFloat 8 (-3);
                          "min_lr" := VFloat 5 (-4) ]} /\
      h1 !! kw2 = Some {[ "size" := os; "device" := dev ]} /\
      h1 !! kw3 = Some {[ "size" := VInt 1; "device" := dev ]} /\
      (forall l, is_Some (h !! l) -> h1 !! l = h !! l))); [done|].
  unfold cfg_a2c.
  apply wp_bind. eapply wp_dict_copy; [done|]. intros lc Hlc. cbv beta iota.
  do 19 wp_step.
  unfold wp. exists lc, kw, kw0, kw1. eexists.
  split; [reflexivity|].
  split; [done|]. split; [done|]. split; [done|]. split; [done|].
  split.
  { repeat (apply NoDup_cons; split;
            [rewrite ?not_elem_of_cons; repeat split;
             first [done | congruence | apply not_elem_of_nil]|]).
    apply NoDup_nil_2. }
  split; [heap_lookup; fail|]. split; [heap_lookup; fail|].
  split; [heap_lookup; fail|]. split; [heap_lookup; fail|].
  intros l [x Hx].
  assert (l <> lc /\ l <> kw /\ l <> kw0 /\ l <> kw1) as (? & ? & ? & ?)
    by (repeat split; congruence).
  by rewrite !lookup_insert_ne by done.
Qed.

Lemma cfg_trpo_prefix (h : heap) ld d os dev :
  h !! ld = Some d ->
  exists lc kw1 kw2 h1,
    cfg_trpo ld os dev h = trpo_experiment_part lc h1 /\
    h !! lc = None /\ h !! kw1 = None /\ h !! kw2 = None /\
    NoDup [lc; kw1; kw2] /\
    h1 !! lc = Some (trpo_top d kw1 kw2) /\
    h1 !! kw1 = Some {[ "size" := os; "device" := dev ]} /\
    h1 !! kw2 = Some {[ "size" := VInt 1; "device" := dev ]} /\
    (forall l, is_Some (h !! l) -> h1 !! l = h !! l).
Proof.
  intros Hd.
  cut (wp (cfg_trpo ld os dev) h (fun r =>
    exists lc kw1 kw2 h1,
      r = trpo_experiment_part lc h1 /\
      h !! lc = None /\ h !! kw1 = None /\ h !! kw2 = None /\
      NoDup [lc; kw1; kw2] /\
      h1 !! lc = Some (trpo_top d kw1 kw2) /\
      h1 !! kw1 = Some {[ "size" := os; "device" := dev ]} /\
      h1 !! kw2 = Some {[ "size" := VInt 1; "device" := dev ]} /\
      (forall l, is_Some (h !! l) -> h1 !! l = h !! l))); [done|].
  unfold cfg_trpo.
  apply wp_bind. eapply wp_dict_copy; [done|]. intros lc Hlc. cbv beta iota.
  do 12 wp_step.
  unfold wp. exists lc, kw, kw0. eexists.
  split; [reflexivity|].
  split; [done|]. split; [done|]. split; [done|].
  split.
  { repeat (apply NoDup_cons; split;
            [rewrite ?not_elem_of_cons; repeat split;
             first [done | congruence | apply not_elem_of_nil]|]).
    apply NoDup_nil_2. }
  split; [heap_lookup; fail|]. split; [heap_lookup; fail|].
  split; [heap_lookup; fail|].
  intros l [x Hx].
  assert (l <> lc /\ l <> kw /\ l <> kw0) as (? & ? & ?)
    by (repeat split; congruence).
  by rewrite !lookup_insert_ne by done.
Qed.

End ConfigPrefix.

(** ** Edge cases and structure of the configuration blocks *)

Section ConfigMore.
Import Py Config Outcome.

Lemma a2c_top_other d kw1 kw2 kw3 k :
  k ∉ a2c_keys -> a2c_top d kw1 kw2 kw3 !! k = d !! k.
Proof.
  intros Hk. unfold a2c_keys in Hk. simpl in Hk.
  rewrite !not_elem_of_cons in Hk.
  repeat match goal with H : _ /\ _ |- _ => destruct H end.
  unfold a2c_top. by rewrite !lookup_insert_ne by done.
Qed.

Lemma trpo_top_other d kw1 kw2 k :
  k ∉ trpo_keys -> trpo_top d kw1 kw2 !! k = d !! k.
Proof.
  intros Hk. unfold trpo_keys in Hk. simpl in Hk.
  rewrite !not_elem_of_cons in Hk.
  repeat match goal with H : _ /\ _ |- _ => destruct H end.
  unfold trpo_top. by rewrite !lookup_insert_ne by done.
Qed.

Lemma experiment_not_a_key :
  ("experiment" ∉ a2c_keys) /\ ("experiment" ∉ trpo_keys).
Proof.
  split; unfold a2c_keys, trpo_keys; simpl; rewrite !not_elem_of_cons;
    repeat split; try done; apply not_elem_of_nil.
Qed.

(** What the last statements of a block do, by what the configuration
    holds under ["experiment"]. *)
Lemma experiment_part_cases (lc : loc) (h1 : heap) (c : gmap string value)
    (wi ci : value) :
  h1 !! lc = Some c ->
  (c !! "experiment" = None ->
   (setitem2 lc "experiment" "write_interval" wi ;;
    setitem2 lc "experiment" "checkpoint_interval" ci ;; ret lc) h1
   = inl (KeyError "experiment")) /\
  (forall v, c !! "experiment" = Some v -> (forall l, v <> VRef l) ->
   (setitem2 lc "experiment" "write_interval" wi ;;
    setitem2 lc "experiment" "checkpoint_interval" ci ;; ret lc) h1
   = inl TypeError) /\
  (forall le x, c !! "experiment" = Some (VRef le) -> h1 !! le = Some x ->
   le <> lc ->
   (setitem2 lc "experiment" "write_interval" wi ;;
    setitem2 lc "experiment" "checkpoint_interval" ci ;; ret lc) h1
   = inr (lc, <[le := <["checkpoint_interval" := ci]>
                        (<["write_interval" := wi]> x)]> h1)).
Proof.
  intros Hc. split; [|split].
  - intros He. unfold mbind, M_bind, bind, setitem2, bind, getitem.
    by rewrite Hc, He.
  - intros v He Hv. unfold mbind, M_bind, bind, setitem2, bind, getitem.
    rewrite Hc, He. destruct v; try done. by destruct (Hv l).
  - intros le x He Hx Hne.
    unfold mbind, M_bind, bind, setitem2, bind, getitem, setitem, ret.
    rewrite Hc, He, Hx.
    rewrite lookup_insert_ne, Hc, He, lookup_insert_eq by done.
    by rewrite insert_insert_eq.
Qed.

(** X14: When the default configuration has no ["experiment"] entry, both
    blocks raise [KeyError] for that key. *)
Theorem config_missing_experiment (h : heap) (ld : loc)
    (d : gmap string value) (os dev : value) :
  h !! ld = Some d -> d !! "experiment" = None ->
  cfg_a2c ld os dev h = inl (KeyError "experiment") /\
  cfg_trpo ld os dev h = inl (KeyError "experiment").
Proof.
  intros Hd He. split.
  - destruct (cfg_a2c_prefix h ld d os dev Hd)
      as (lc & k1 & k2 & k3 & h1 & -> & _ & _ & _ & _ & _ & Hc & _).
    apply (experiment_part_cases lc h1 _ _ _ Hc).
    rewrite a2c_top_other; [done|apply experiment_not_a_key].
  - destruct (cfg_trpo_prefix h ld d os dev Hd)
      as (lc & k1 & k2 & h1 & -> & _ & _ & _ & _ & Hc & _).
    apply (experiment_part_cases lc h1 _ _ _ Hc).
    rewrite trpo_top_other; [done|apply experiment_not_a_key].
Qed.

(** X15: When the default's ["experiment"] entry is [None], a boolean,
    an integer, a float or a string, both blocks raise [TypeError]. *)
Theorem config_experiment_not_a_dict (h : heap) (ld : loc)
    (d : gmap string value) (v : value) (os dev : value) :
  h !! ld = Some d -> d !! "experiment" = Some v ->
  no_item_assignment v ->
  cfg_a2c ld os dev h = inl TypeError /\
  cfg_trpo ld os dev h = inl TypeError.
Proof.
  intros Hd He Hv.
  assert (Hv' : forall l, v <> VRef l) by (intros l ->; exact Hv).
  split.
  - destruct (cfg_a2c_prefix h ld d os dev Hd)
      as (lc & k1 & k2 & k3 & h1 & -> & _ & _ & _ & _ & _ & Hc & _).
    apply (proj1 (proj2 (experiment_part_cases lc h1 _ _ _ Hc)) v); [|done].
    rewrite a2c_top_other; [done|apply experiment_not_a_key].
  - destruct (cfg_trpo_prefix h ld d os dev Hd)
      as (lc & k1 & k2 & h1 & -> & _ & _ & _ & _ & Hc & _).
    apply (proj1 (proj2 (experiment_part_cases lc h1 _ _ _ Hc)) v); [|done].
    rewrite trpo_top_other; [done|apply experiment_not_a_key].
Qed.

(** The whole A2C block on a default as the script expects it, with
    the objects it creates named. *)
Lemma cfg_a2c_explicit (h : heap) ld le d x os dev :
  default_config_at h ld le d x ->
  exists lc kw1 kw2 kw3 h',
    cfg_a2c ld os dev h = inr (lc, h') /\
    h !! lc = None /\ h !! kw1 = None /\ h !! kw2 = None /\ h !! kw3 = None /\
    NoDup [lc; kw1; kw2; kw3] /\
    h' !! lc = Some (a2c_top d kw1 kw2 kw3) /\
    h' !! kw1 = Some {[ "kl_threshold" := VFloat 8 (-3);
                        "min_lr" := VFloat 5 (-4) ]} /\
    h' !! kw2 = Some {[ "size" := os; "device" := dev ]} /\
    h' !! kw3 = Some {[ "size" := VInt 1; "device" := dev ]}.
Proof.
  intros (Hd & He & Hx & Hne).
  destruct (cfg_a2c_prefix h ld d os dev Hd)
    as (lc & k1 & k2 & k3 & h1 & -> & F0 & F1 & F2 & F3 & Hnd & Hc & H1 & H2
        & H3 & Hframe).
  exists lc, k1, k2, k3. eexists. split.
  - apply (proj2 (proj2 (experiment_part_cases lc h1 _ _ _ Hc)) le x).
    + rewrite a2c_top_other; [done|apply experiment_not_a_key].
    + rewrite Hframe; eauto.
    + congruence.
  - repeat (split; [done|]).
    assert (le <> lc /\ le <> k1 /\ le <> k2 /\ le <> k3) as (? & ? & ? & ?)
      by (repeat split; congruence).
    by rewrite !lookup_insert_ne by done.
Qed.

Lemma cfg_trpo_explicit (h : heap) ld le d x os dev :
  default_config_at h ld le d x ->
  exists lc kw1 kw2 h',
    cfg_trpo ld os dev h = inr (lc, h') /\
    h !! lc = None /\ h !! kw1 = None /\ h !! kw2 = None /\
    NoDup [lc; kw1; kw2] /\
    h' !! lc = Some (trpo_top d kw1 kw2) /\
    h' !! kw1 = Some {[ "size" := os; "device" := dev ]} /\
    h' !! kw2 = Some {[ "size" := VInt 1; "device" := dev ]}.
Proof.
  intros (Hd & He & Hx & Hne).
  destruct (cfg_trpo_prefix h ld d os dev Hd)
    as (lc & k1 & k2 & h1 & -> & F0 & F1 & F2 & Hnd & Hc & H1 & H2 & Hframe).
  exists lc, k1, k2. eexists. split.
  - apply (proj2 (proj2 (experiment_part_cases lc h1 _ _ _ Hc)) le x).
    + rewrite trpo_top_other; [done|apply experiment_not_a_key].
    + rewrite Hframe; eauto.
    + congruence.
  - repeat (split; [done|]).
    assert (le <> lc /\ le <> k1 /\ le <> k2) as (? & ? & ?)
      by (repeat split; congruence).
    by rewrite !lookup_insert_ne by done.
Qed.

(** X16: The keys of the finished configuration are the default's keys and
    the keys the block assigns: no key is removed, and an assigned key
    the default lacks is added. *)
Theorem config_key_set (ha ht : heap) (la ea lt et : loc)
    (da xa dt xt : gmap string value) (os dev : value) :
  default_config_at ha la ea da xa ->
  default_config_at ht lt et dt xt ->
  (exists lc h' c,
      cfg_a2c la os dev ha = inr (lc, h') /\ h' !! lc = Some c /\
      dom c = dom da ∪ list_to_set a2c_keys) /\
  (exists lc h' c,
      cfg_trpo lt os dev ht = inr (lc, h') /\ h' !! lc = Some c /\
      dom c = dom dt ∪ list_to_set trpo_keys).
Proof.
  intros Ha Ht. split.
  - destruct (cfg_a2c_explicit ha la ea da xa os dev Ha)
      as (lc & k1 & k2 & k3 & h' & Hrun & _ & _ & _ & _ & _ & Hc & _).
    exists lc, h', (a2c_top da k1 k2 k3). split; [done|]. split; [done|].
    unfold a2c_top, a2c_keys. simpl. rewrite !dom_insert_L.
    apply set_eq. intros k.
    rewrite !elem_of_union, !elem_of_singleton, elem_of_empty. tauto.
  - destruct (cfg_trpo_explicit ht lt et dt xt os dev Ht)
      as (lc & k1 & k2 & h' & Hrun & _ & _ & _ & _ & Hc & _).
    exists lc, h', (trpo_top dt k1 k2). split; [done|]. split; [done|].
    unfold trpo_top, trpo_keys. simpl. rewrite !dom_insert_L.
    apply set_eq. intros k.
    rewrite !elem_of_union, !elem_of_singleton, elem_of_empty. tauto.
Qed.

(** X17: The keyword-argument dictionaries of a block are new objects,
    different from each other, from the configuration and from every
    object that existed before: unlike the ["experiment"] dictionary
    they are shared with nothing. *)
Theorem config_kwargs_are_new (ha ht : heap) (la ea lt et : loc)
    (da xa dt xt : gmap string value) (os dev : value) :
  default_config_at ha la ea da xa ->
  default_config_at ht lt et dt xt ->
  (exists lc h' c kw1 kw2 kw3,
      cfg_a2c la os dev ha = inr (lc, h') /\ h' !! lc = Some c /\
      c !! "learning_rate_scheduler_kwargs" = Some (VRef kw1) /\
      c !! "state_preprocessor_kwargs" = Some (VRef kw2) /\
      c !! "value_preprocessor_kwargs" = Some (VRef kw3) /\
      NoDup [lc; kw1; kw2; kw3] /\
      ha !! kw1 = None /\ ha !! kw2 = None /\ ha !! kw3 = None /\
      is_Some (h' !! kw1) /\ is_Some (h' !! kw2) /\ is_Some (h' !! kw3)) /\
  (exists lc h' c kw1 kw2,
      cfg_trpo lt os dev ht = inr (lc, h') /\ h' !! lc = Some c /\
      c !! "state_preprocessor_kwargs" = Some (VRef kw1) /\
      c !! "value_preprocessor_kwargs" = Some (VRef kw2) /\
      NoDup [lc; kw1; kw2] /\
      ht !! kw1 = None /\ ht !! kw2 = None /\
      is_Some (h' !! kw1) /\ is_Some (h' !! kw2)).
Proof.
  intros Ha Ht. split.
  - destruct (cfg_a2c_explicit ha la ea da xa os dev Ha)
      as (lc & k1 & k2 & k3 & h' & Hrun & _ & F1 & F2 & F3 & Hnd & Hc & H1
          & H2 & H3).
    exists lc, h', (a2c_top da k1 k2 k3), k1, k2, k3.
    split; [done|]. split; [done|]. unfold a2c_top.
    split; [by heap_lookup|]. split; [by heap_lookup|].
    split; [by heap_lookup|]. repeat (split; [done|]). eauto.
  - destruct (cfg_trpo_explicit ht lt et dt xt os dev Ht)
      as (lc & k1 & k2 & h' & Hrun & _ & F1 & F2 & Hnd & Hc & H1 & H2).
    exists lc, h', (trpo_top dt k1 k2), k1, k2.
    split; [done|]. split; [done|]. unfold trpo_top.
    split; [by heap_lookup|]. split; [by heap_lookup|].
    repeat (split; [done|]). eauto.
Qed.

Lemma experiment_overrides_idem (x : gmap string value) (wi ci : value) :
  <["checkpoint_interval" := ci]>
    (<["write_interval" := wi]>
       (<["checkpoint_interval" := ci]> (<["write_interval" := wi]> x)))
  = <["checkpoint_interval" := ci]> (<["write_interval" := wi]> x).
Proof.
  apply map_eq. intros k.
  destruct (decide (k = "checkpoint_interval")) as [->|Hc];
    [by rewrite !lookup_insert_eq|].
  destruct (decide (k = "write_interval")) as [->|Hw];
    repeat first [ rewrite lookup_insert_eq
                 | rewrite lookup_insert_ne by done ]; done.
Qed.

(** X18: Running a block a second time in the same process, on the default
    the first run left behind, returns again: it gives a second, new
    configuration object, leaves the first configuration's dictionary
    and the default's top-level dictionary as they were, and leaves the
    shared ["experiment"] dictionary as the first run left it. *)
Theorem config_block_twice (ha ht : heap) (la ea lt et : loc)
    (da xa dt xt : gmap string value) (os dev : value) :
  default_config_at ha la ea da xa ->
  default_config_at ht lt et dt xt ->
  (exists lc1 h1 lc2 h2,
      cfg_a2c la os dev ha = inr (lc1, h1) /\
      cfg_a2c la os dev h1 = inr (lc2, h2) /\
      lc1 <> lc2 /\ is_Some (h1 !! lc1) /\ h2 !! lc1 = h1 !! lc1 /\
      h2 !! la = Some da /\ is_Some (h1 !! ea) /\ h2 !! ea = h1 !! ea) /\
  (exists lc1 h1 lc2 h2,
      cfg_trpo lt os dev ht = inr (lc1, h1) /\
      cfg_trpo lt os dev h1 = inr (lc2, h2) /\
      lc1 <> lc2 /\ is_Some (h1 !! lc1) /\ h2 !! lc1 = h1 !! lc1 /\
      h2 !! lt = Some dt /\ is_Some (h1 !! et) /\ h2 !! et = h1 !! et).
Proof.
  intros (Hda & Hea & Hxa & Hna) (Hdt & Het & Hxt & Hnt). split.
  - destruct (cfg_a2c_runs ha la ea da xa os dev Hda Hea Hxa)
      as (lc1 & h1 & c1 & Hrun1 & Hf1 & Hc1 & _ & _ & Hle1 & Hframe1).
    assert (h1 !! la = Some da) as Hla1 by (rewrite Hframe1; eauto).
    destruct (cfg_a2c_runs h1 la ea da _ os dev Hla1 Hea Hle1)
      as (lc2 & h2 & c2 & Hrun2 & Hf2 & Hc2 & _ & _ & Hle2 & Hframe2).
    exists lc1, h1, lc2, h2. split; [done|]. split; [done|].
    split; [congruence|]. split; [eauto|].
    split; [apply Hframe2; [congruence|eauto]|].
    split; [rewrite Hframe2; eauto|]. split; [eauto|].
    by rewrite Hle2, Hle1, experiment_overrides_idem.
  - destruct (cfg_trpo_runs ht lt et dt xt os dev Hdt Het Hxt)
      as (lc1 & h1 & c1 & Hrun1 & Hf1 & Hc1 & _ & _ & Hle1 & Hframe1).
    assert (h1 !! lt = Some dt) as Hlt1 by (rewrite Hframe1; eauto).
    destruct (cfg_trpo_runs h1 lt et dt _ os dev Hlt1 Het Hle1)
      as (lc2 & h2 & c2 & Hrun2 & Hf2 & Hc2 & _ & _ & Hle2 & Hframe2).
    exists lc1, h1, lc2, h2. split; [done|]. split; [done|].
    split; [congruence|]. split; [eauto|].
    split; [apply Hframe2; [congruence|eauto]|].
    split; [rewrite Hframe2; eauto|]. split; [eauto|].
    by rewrite Hle2, Hle1, experiment_overrides_idem.
Qed.

End ConfigMore.

(** A default configuration without the nested dictionary. *)
Lemma config_missing_experiment_witness :
  Config.cfg_a2c 1%positive (Py.VObj "env.observation_space")
    (Py.VObj "env.device") MoreExamples.heap_without_experiment
  = inl (Py.KeyError "experiment") /\
  Config.cfg_trpo 1%positive (Py.VObj "env.observation_space")
    (Py.VObj "env.device") MoreExamples.heap_without_experiment
  = inl (Py.KeyError "experiment").
Proof.
  apply (config_missing_experiment MoreExamples.heap_without_experiment
           1%positive {[ "rollouts" := Py.VInt 16 ]}); reflexivity.
Defined.

(** A default configuration whose nested entry is [None]. *)
Lemma config_experiment_not_a_dict_witness :
  Config.cfg_a2c 1%positive (Py.VObj "env.observation_space")
    (Py.VObj "env.device") MoreExamples.heap_with_experiment_none
  = inl Py.TypeError /\
  Config.cfg_trpo 1%positive (Py.VObj "env.observation_space")
    (Py.VObj "env.device") MoreExamples.heap_with_experiment_none
  = inl Py.TypeError.
Proof.
  apply (config_experiment_not_a_dict MoreExamples.heap_with_experiment_none
           1%positive
           {[ "rollouts" := Py.VInt 16; "experiment" := Py.VNone ]}
           Py.VNone); [reflexivity | reflexivity | exact I].
Defined.

(** The key sets on the example default configuration. *)
Lemma config_key_set_witness :
  (exists lc h' c,
      Config.cfg_a2c 1%positive (Py.VObj "env.observation_space")
        (Py.VObj "env.device") Examples.default_heap = inr (lc, h') /\
      h' !! lc = Some c /\
      dom c = dom Examples.default_config ∪ list_to_set Outcome.a2c_keys) /\
  (exists lc h' c,
      Config.cfg_trpo 1%positive (Py.VObj "env.observation_space")
        (Py.VObj "env.device") Examples.default_heap = inr (lc, h') /\
      h' !! lc = Some c /\
      dom c = dom Examples.default_config ∪ list_to_set Outcome.trpo_keys).
Proof.
  apply (config_key_set Examples.default_heap Examples.default_heap
           1 2 1 2 _ _ _ _ _ _
           default_config_at_example default_config_at_example).
Defined.

(** The keyword dictionaries on the example default configuration. *)
Lemma config_kwargs_are_new_witness :
  (exists lc h' c kw1 kw2 kw3,
      Config.cfg_a2c 1%positive (Py.VObj "env.observation_space")
        (Py.VObj "env.device") Examples.default_heap = inr (lc, h') /\
      h' !! lc = Some c /\
      c !! "learning_rate_scheduler_kwargs" = Some (Py.VRef kw1) /\
      c !! "state_preprocessor_kwargs" = Some (Py.VRef kw2) /\
      c !! "value_preprocessor_kwargs" = Some (Py.VRef kw3) /\
      NoDup [lc; kw1; kw2; kw3] /\
      Examples.default_heap !! kw1 = None /\
      Examples.default_heap !! kw2 = None /\
      Examples.default_heap !! kw3 = None /\
      is_Some (h' !! kw1) /\ is_Some (h' !! kw2) /\ is_Some (h' !! kw3)) /\
  (exists lc h' c kw1 kw2,
      Config.cfg_trpo 1%positive (Py.VObj "env.observation_space")
        (Py.VObj "env.device") Examples.default_heap = inr (lc, h') /\
      h' !! lc = Some c /\
      c !! "state_preprocessor_kwargs" = Some (Py.VRef kw1) /\
      c !! "value_preprocessor_kwargs" = Some (Py.VRef kw2) /\
      NoDup [lc; kw1; kw2] /\
      Examples.default_heap !! kw1 = None /\
      Examples.default_heap !! kw2 = None /\
      is_Some (h' !! kw1) /\ is_Some (h' !! kw2)).
Proof.
  apply (config_kwargs_are_new Examples.default_heap Examples.default_heap
           1 2 1 2 _ _ _ _ _ _
           default_config_at_example default_config_at_example).
Defined.

(** Both blocks twice on the example default configuration. *)
Lemma config_block_twice_witness :
  (exists lc1 h1 lc2 h2,
      Config.cfg_a2c 1%positive (Py.VObj "env.observation_space")
        (Py.VObj "env.device") Examples.default_heap = inr (lc1, h1) /\
      Config.cfg_a2c 1%positive (Py.VObj "env.observation_space")
        (Py.VObj "env.device") h1 = inr (lc2, h2) /\
      lc1 <> lc2 /\ is_Some (h1 !! lc1) /\ h2 !! lc1 = h1 !! lc1 /\
      h2 !! 1%positive = Some Examples.default_config /\
      is_Some (h1 !! 2%positive) /\ h2 !! 2%positive = h1 !! 2%positive) /\
  (exists lc1 h1 lc2 h2,
      Config.cfg_trpo 1%positive (Py.VObj "env.observation_space")
        (Py.VObj "env.device") Examples.default_heap = inr (lc1, h1) /\
      Config.cfg_trpo 1%positive (Py.VObj "env.observation_space")
        (Py.VObj "env.device") h1 = inr (lc2, h2) /\
      lc1 <> lc2 /\ is_Some (h1 !! lc1) /\ h2 !! lc1 = h1 !! lc1 /\
      h2 !! 1%positive = Some Examples.default_config /\
      is_Some (h1 !! 2%positive) /\ h2 !! 2%positive = h1 !! 2%positive).
Proof.
  apply (config_block_twice Examples.default_heap Examples.default_heap
           1 2 1 2 _ _ _ _ _ _
           default_config_at_example default_config_at_example).
Defined.
